(** * Citizen AI: a shallow embedding of [app.py]

    The Flask application is modelled function by function.  Python text is
    a [string] whose characters are the code points 0..255 (Latin-1): on
    that range [str.lower] and [str.strip] stay inside the range and are
    written out below.  The session, the request form and the JSON body are
    finite maps keyed by strings; the three tables are lists of rows in
    insertion order; a view function is a state transformer on [World]
    that either returns a [Response] or lets an exception escape. *)

From Stdlib Require Import Floats ZArith Lia Ascii String.
From stdpp Require Import gmap strings list sorting.

Set Warnings "-inexact-float,-register-all".
Local Open Scope bool_scope.

(** ** Python text primitives *)

Module Py.

(** [c.lower()] for one code point below 256: A..Z and the accented
    capitals U+00C0..U+00DE (the multiplication sign U+00D7 apart) move up
    by 32, everything else is unchanged. *)
Definition lower_char (c : ascii) : ascii :=
  let n := N_of_ascii c in
  if ((65 <=? n) && (n <=? 90)
      || (192 <=? n) && (n <=? 222) && negb (n =? 215))%N
  then ascii_of_N (n + 32) else c.

(** [s.lower()] *)
Fixpoint lower (s : string) : string :=
  match s with
  | EmptyString => EmptyString
  | String c s' => String (lower_char c) (lower s')
  end.

(** [c.isspace()] below 256: TAB..CR, FS..US, SPACE, NEL and NBSP. *)
Definition isspace (c : ascii) : bool :=
  let n := N_of_ascii c in
  ((9 <=? n) && (n <=? 13) || (28 <=? n) && (n <=? 32)
   || (n =? 133) || (n =? 160))%N.

(** [s.lstrip()] *)
Fixpoint lstrip (s : string) : string :=
  match s with
  | EmptyString => EmptyString
  | String c s' => if isspace c then lstrip s' else s
  end.

(** [s.rstrip()]: the tail is stripped first, and a white-space character
    in front of an emptied tail goes with it. *)
Fixpoint rstrip (s : string) : string :=
  match s with
  | EmptyString => EmptyString
  | String c s' =>
      match rstrip s' with
      | EmptyString => if isspace c then EmptyString else String c EmptyString
      | t => String c t
      end
  end.

(** [s.strip()] *)
Definition strip (s : string) : string := rstrip (lstrip s).

(** [bool(s)] for a string: the empty string is the only falsy one. *)
Definition truthy (s : string) : bool :=
  match s with EmptyString => false | _ => true end.

(** [s.startswith(p)] *)
Fixpoint startswith (p s : string) : bool :=
  match p, s with
  | EmptyString, _ => true
  | String _ _, EmptyString => false
  | String a p', String b s' => Ascii.eqb a b && startswith p' s'
  end.

(** [needle in hay] on strings: substring containment. *)
Fixpoint contains (needle hay : string) : bool :=
  startswith needle hay
  || match hay with
     | EmptyString => false
     | String _ hay' => contains needle hay'
     end.

(** [any(word in text for word in words)] *)
Definition any_in (words : list string) (text : string) : bool :=
  existsb (fun word => contains word text) words.

End Py.

(** ** The Responder: [get_ai_response] *)

Definition LICENSE_WORDS : list string := ["license"; "permit"; "registration"; "id"].
Definition VOTING_WORDS : list string := ["vote"; "voting"; "election"; "ballot"].
Definition TAX_WORDS : list string := ["tax"; "taxes"; "irs"; "refund"].
Definition SOCIAL_WORDS : list string :=
  ["social"; "benefits"; "assistance"; "welfare"; "food"; "medicaid"].
Definition LEGAL_WORDS : list string := ["court"; "legal"; "lawsuit"; "ticket"; "fine"].

Definition TEMPLATE_LICENSES : string :=
"Regarding your question about licenses and permits:

For most licenses and permits, you'll need to:
1. Visit your local government office or official website
2. Bring required documentation (usually ID, proof of residence, application forms)
3. Pay applicable fees
4. Allow processing time (varies by type)

Common types:
- Driver's License: Contact your local DMV
- Business License: Visit your city/county clerk's office
- Building Permit: Contact your local building department
- Professional License: Check with your state's professional licensing board

Would you like specific information about a particular type of license or permit?".

Definition TEMPLATE_VOTING : string :=
"Regarding voting and elections:

To participate in elections, you need to:
1. Register to vote (if not already registered)
2. Find your polling location
3. Understand what's on your ballot
4. Know your voting rights

Key resources:
- Voter registration: Contact your local election office or register online
- Polling locations: Check your state's Secretary of State website
- Sample ballots: Available on your county election website
- Voting rights: Protected by federal and state law

Upcoming elections and deadlines can be found on your local election office website.".

Definition TEMPLATE_TAX : string :=
"Regarding tax matters:

For tax assistance, here are your main options:
1. IRS website (irs.gov) for federal tax information
2. Your state's revenue department for state taxes
3. Local tax assessor for property taxes
4. Free tax preparation programs (VITA/TCE) for qualifying individuals

Common tax services:
- Filing tax returns
- Getting tax refunds
- Payment plans for owed taxes
- Tax transcripts and records
- Resolving tax issues

For immediate assistance, you can call the IRS helpline or visit a local tax assistance center.".

Definition TEMPLATE_SOCIAL : string :=
"Regarding social services and benefits:

Common assistance programs include:
1. SNAP (Food assistance)
2. Medicaid (Healthcare)
3. TANF (Temporary assistance)
4. Housing assistance
5. Unemployment benefits

To apply:
- Visit your local Department of Social Services
- Apply online through your state's benefits portal
- Call the benefits hotline in your area
- Bring required documentation (ID, income proof, etc.)

Eligibility varies by program and income level. Most applications can be started online and completed in person.".

Definition TEMPLATE_LEGAL : string :=
"Regarding legal and court matters:

For court-related issues:
1. Traffic tickets: Pay online, by mail, or contest in court
2. Small claims: File at your local courthouse
3. Legal aid: Free/low-cost legal help for qualifying individuals
4. Court records: Available through clerk of court

Important:
- Never ignore court notices or tickets
- Deadlines are strictly enforced
- Legal aid organizations can help if you can't afford an attorney
- Court self-help centers provide guidance for representing yourself

Contact your local courthouse for specific procedures and requirements.".

Definition TEMPLATE_DEFAULT : string :=
"Thank you for your question about government services.

I'm here to help with information about:
- Licenses and permits
- Voting and elections  
- Tax matters
- Social services and benefits
- Court and legal issues
- Municipal services

For the most accurate and up-to-date information about your specific situation, I recommend:
1. Visiting your local government office
2. Checking official government websites (.gov domains)
3. Calling the relevant department directly

Could you provide more details about what specific government service or information you're looking for? I'd be happy to point you in the right direction.".

Definition get_ai_response (question : string) : string :=
  let question_lower := Py.lower question in
  if Py.any_in LICENSE_WORDS question_lower then TEMPLATE_LICENSES
  else if Py.any_in VOTING_WORDS question_lower then TEMPLATE_VOTING
  else if Py.any_in TAX_WORDS question_lower then TEMPLATE_TAX
  else if Py.any_in SOCIAL_WORDS question_lower then TEMPLATE_SOCIAL
  else if Py.any_in LEGAL_WORDS question_lower then TEMPLATE_LEGAL
  else TEMPLATE_DEFAULT.

(** ** The chat-turn classifier (the tail of [chat_api]) *)

Definition NEGATIVE_WORDS : list string :=
  ["angry"; "frustrated"; "upset"; "hate"; "terrible"; "awful"; "disappointed"; "bad"].
Definition POSITIVE_WORDS : list string :=
  ["happy"; "great"; "excellent"; "love"; "amazing"; "wonderful"; "good"; "satisfied"].

Definition chat_sentiment (user_input : string) : string :=
  let user_lower := Py.lower user_input in
  if Py.any_in NEGATIVE_WORDS user_lower then "negative"
  else if Py.any_in POSITIVE_WORDS user_lower then "positive"
  else "neutral".

(** ** Data model: the three tables *)

Module User.
Record t := mk {
  id : Z;
  full_name : string;
  email : string;
  password_hash : string;
  created_at : Z
}.
End User.

Module ChatHistory.
Record t := mk {
  id : Z;
  user_id : Z;
  question : string;
  response : string;
  timestamp : Z
}.
End ChatHistory.

Module Feedback.
Record t := mk {
  id : Z;
  user_id : Z;
  question : string;
  feedback_text : string;
  sentiment : string;
  timestamp : Z
}.
End Feedback.

(** An object handed to [db.session.add]: a row that has no primary key and
    no timestamp yet; both are filled in when the commit writes it. *)
Inductive Insert :=
| NewUser (full_name email password_hash : string)
| NewChatHistory (user_id : Z) (question response : string)
| NewFeedback (user_id : Z) (question feedback_text sentiment : string).

(** What the handlers ask of the store, in order. *)
Inductive DbEvent :=
| Select (table : string)
| Add
| Commit
| Rollback.

(** Values kept in the Flask session: [user_id] is an integer and
    [user_name] a string. *)
Inductive SessVal :=
| SInt (n : Z)
| SStr (s : string).

Record Exn := mkExn { exn_class : string; exn_msg : string }.

(** [str(e)] *)
Definition str (e : Exn) : string := exn_msg e.

Inductive Method := GET | POST.

(** A value decoded from JSON, as [json.loads] returns it: [None], a
    [bool], an [int], a [float], a [str], a [list] or a [dict] (whose keys
    are distinct). *)
Inductive JsonValue :=
| JNull
| JBool (b : bool)
| JInt (n : Z)
| JFloat (x : float)
| JString (s : string)
| JList (items : list JsonValue)
| JDict (members : list (string * JsonValue)).

(** The body of a request as [request.json] finds it: sent with a content
    type that is not JSON, sent as JSON but with a text that does not
    parse, or parsed to a value. *)
Inductive Body :=
| NotJson
| Malformed
| Parsed (value : JsonValue).

Record Request := mkRequest {
  method : Method;
  path : string;
  form : gmap string string;
  json : Body
}.

(** [bool(v)] *)
Definition json_truthy (v : JsonValue) : bool :=
  match v with
  | JNull => false
  | JBool b => b
  | JInt n => negb (n =? 0)%Z
  | JFloat x => negb (x =? 0)%float
  | JString s => Py.truthy s
  | JList items => match items with [] => false | _ :: _ => true end
  | JDict members => match members with [] => false | _ :: _ => true end
  end.

(** [type(v).__name__] *)
Definition type_name (v : JsonValue) : string :=
  match v with
  | JNull => "NoneType"
  | JBool _ => "bool"
  | JInt _ => "int"
  | JFloat _ => "float"
  | JString _ => "str"
  | JList _ => "list"
  | JDict _ => "dict"
  end.

(** The exception of [v.name] when the type of [v] has no such attribute. *)
Definition no_attribute (v : JsonValue) (name : string) : Exn :=
  mkExn "AttributeError"
        ("'" +:+ type_name v +:+ "' object has no attribute '" +:+ name +:+ "'").

(** [members.get(key)] on a dict *)
Definition dict_get (key : string) (members : list (string * JsonValue)) : JsonValue :=
  match List.find (fun member => String.eqb (fst member) key) members with
  | Some member => snd member
  | None => JNull
  end.

(** The dictionary built by [get_feedback_stats]. *)
Module Stats.
Record t := mk {
  positive : nat;
  neutral : nat;
  negative : nat;
  total : nat
}.
End Stats.

Inductive Context :=
| NoContext
| DashboardContext (stats : Stats.t) (recent_feedback : list Feedback.t).

Inductive Response :=
| Redirect (location : string)
| Page (template : string) (context : Context) (status : nat)
| Json (body : list (string * string)) (status : nat)
| Abort (status : nat).

(** Everything a view function can read or change. [writable] says whether
    the storage engine accepts the next commit (a locked or read-only
    database refuses it); [clock] is [datetime.utcnow()]; [entropy] numbers
    the salts drawn by [generate_password_hash]. *)
Record World := mkWorld {
  users : list User.t;
  chat_history : list ChatHistory.t;
  feedback : list Feedback.t;
  pending : list Insert;
  trace : list DbEvent;
  writable : bool;
  clock : Z;
  entropy : nat;
  session : gmap string SessVal;
  flashes : list (string * string);
  log : list string
}.

Definition set_users (v : list User.t) (w : World) : World :=
  mkWorld v (chat_history w) (feedback w) (pending w) (trace w) (writable w)
          (clock w) (entropy w) (session w) (flashes w) (log w).
Definition set_chat_history (v : list ChatHistory.t) (w : World) : World :=
  mkWorld (users w) v (feedback w) (pending w) (trace w) (writable w)
          (clock w) (entropy w) (session w) (flashes w) (log w).
Definition set_feedback (v : list Feedback.t) (w : World) : World :=
  mkWorld (users w) (chat_history w) v (pending w) (trace w) (writable w)
          (clock w) (entropy w) (session w) (flashes w) (log w).
Definition set_pending (v : list Insert) (w : World) : World :=
  mkWorld (users w) (chat_history w) (feedback w) v (trace w) (writable w)
          (clock w) (entropy w) (session w) (flashes w) (log w).
Definition set_trace (v : list DbEvent) (w : World) : World :=
  mkWorld (users w) (chat_history w) (feedback w) (pending w) v (writable w)
          (clock w) (entropy w) (session w) (flashes w) (log w).
Definition set_entropy (v : nat) (w : World) : World :=
  mkWorld (users w) (chat_history w) (feedback w) (pending w) (trace w)
          (writable w) (clock w) v (session w) (flashes w) (log w).
Definition set_session (v : gmap string SessVal) (w : World) : World :=
  mkWorld (users w) (chat_history w) (feedback w) (pending w) (trace w)
          (writable w) (clock w) (entropy w) v (flashes w) (log w).
Definition set_flashes (v : list (string * string)) (w : World) : World :=
  mkWorld (users w) (chat_history w) (feedback w) (pending w) (trace w)
          (writable w) (clock w) (entropy w) (session w) v (log w).
Definition set_log (v : list string) (w : World) : World :=
  mkWorld (users w) (chat_history w) (feedback w) (pending w) (trace w)
          (writable w) (clock w) (entropy w) (session w) (flashes w) v.

(** ** A state-and-exception monad for view functions *)

Inductive Outcome (A : Type) :=
| Returns (a : A)
| Raises (e : Exn).
Arguments Returns {A} a.
Arguments Raises {A} e.

Definition M (A : Type) : Type := World -> Outcome A * World.

Definition ret {A} (a : A) : M A := fun w => (Returns a, w).
Definition raise {A} (e : Exn) : M A := fun w => (Raises e, w).
Definition bind {A B} (m : M A) (k : A -> M B) : M B :=
  fun w => match m w with
           | (Returns a, w') => k a w'
           | (Raises e, w') => (Raises e, w')
           end.
(** [try: body / except Exception as e: handler e].  An [Exn] stands for an
    exception derived from [Exception], the ones such a clause catches. *)
Definition try_except {A} (body : M A) (handler : Exn -> M A) : M A :=
  fun w => match body w with
           | (Returns a, w') => (Returns a, w')
           | (Raises e, w') => handler e w'
           end.
Definition gets {A} (f : World -> A) : M A := fun w => (Returns (f w), w).
Definition modify (f : World -> World) : M unit := fun w => (Returns tt, f w).

Notation "x <- m ;; k" := (bind m (fun x => k))
  (at level 63, m at next level, right associativity).
Notation "m ;;; k" := (bind m (fun _ => k))
  (at level 63, right associativity).

(** ** Flask and SQLAlchemy operations *)

Definition flash (message category : string) : M unit :=
  modify (fun w => set_flashes (flashes w ++ [(category, message)]) w).

Definition logging_error (line : string) : M unit :=
  modify (fun w => set_log (log w ++ [line]) w).

(** [url_for(endpoint)] over the routes of the application. *)
Definition url_for (endpoint : string) : string :=
  if String.eqb endpoint "index" then "/"
  else "/" +:+ endpoint.

Definition redirect (location : string) : M Response := ret (Redirect location).
Definition render_template (template : string) : M Response :=
  ret (Page template NoContext 200).
Definition jsonify (body : list (string * string)) (status : nat) : M Response :=
  ret (Json body status).

(** The next integer primary key: one more than the largest in the table. *)
Definition fresh_id (ids : list Z) : Z := (1 + foldr Z.max 0 ids)%Z.

(** Writing one pending object to its table. *)
Definition write (i : Insert) (w : World) : World :=
  match i with
  | NewUser n e h =>
      set_users (users w ++ [User.mk (fresh_id (User.id <$> users w)) n e h (clock w)]) w
  | NewChatHistory u q r =>
      set_chat_history
        (chat_history w
         ++ [ChatHistory.mk (fresh_id (ChatHistory.id <$> chat_history w)) u q r (clock w)]) w
  | NewFeedback u q f s =>
      set_feedback
        (feedback w
         ++ [Feedback.mk (fresh_id (Feedback.id <$> feedback w)) u q f s (clock w)]) w
  end.

Definition db_add (i : Insert) : M unit :=
  modify (fun w => set_pending (pending w ++ [i]) (set_trace (trace w ++ [Add]) w)).

(** [db.session.commit()]: all pending objects are written, or none is and
    the call raises; the session then rolls its transaction back by itself
    and drops the objects that were pending. *)
Definition db_commit : M unit :=
  fun w =>
    let w := set_trace (trace w ++ [Commit]) w in
    if writable w
    then (Returns tt, set_pending [] (foldl (fun acc i => write i acc) w (pending w)))
    else (Raises (mkExn "OperationalError" "database is locked"), set_pending [] w).

Definition db_rollback : M unit :=
  modify (fun w => set_pending [] (set_trace (trace w ++ [Rollback]) w)).

(** [User.query.filter_by(email=email).first()] *)
Definition user_by_email (email : string) : M (option User.t) :=
  fun w => (Returns (List.find (fun u => String.eqb (User.email u) email) (users w)),
            set_trace (trace w ++ [Select "user"]) w).

(** [Feedback.query.filter_by(user_id=uid).all()] *)
Definition feedback_by_user (uid : Z) : M (list Feedback.t) :=
  fun w => (Returns (List.filter (fun f => Z.eqb (Feedback.user_id f) uid) (feedback w)),
            set_trace (trace w ++ [Select "feedback"]) w).

(** [session['user_id']].  The application only ever stores an integer under
    that key; a session holding a string there is a state no view produces,
    and what the queries would make of it is not modelled: the lookup is
    made to fail. *)
Definition session_user_id : M Z :=
  fun w => match session w !! "user_id" with
           | Some (SInt n) => (Returns n, w)
           | Some (SStr _) => (Raises (mkExn "TypeError" "user_id"), w)
           | None => (Raises (mkExn "KeyError" "user_id"), w)
           end.

(** ['user_id' in session] *)
Definition logged_in (w : World) : bool :=
  bool_decide (is_Some (session w !! "user_id")).

(** ** Libraries outside the repository

    TextBlob and werkzeug.security are not part of the application; the
    views are written against this interface.  [textblob_polarity text] is
    [TextBlob(text).sentiment.polarity], a binary64 number, or the exception
    the library raised; the first argument of [generate_password_hash] is
    the number of the salt it draws. *)
Class Externals := {
  textblob_polarity : string -> Outcome float;
  generate_password_hash : nat -> string -> string;
  check_password_hash : string -> string -> bool
}.

(** [request.form.get(key, default)] *)
Definition form_get (request : Request) (key default_value : string) : string :=
  default default_value (form request !! key).

(** [request.json]: the parsed body, or the HTTP exception Flask raises for
    a content type that is not JSON (415) and for a text that does not
    parse (400). *)
Definition request_json (request : Request) : M JsonValue :=
  match json request with
  | Parsed value => ret value
  | NotJson => raise (mkExn "UnsupportedMediaType" "request body is not JSON")
  | Malformed => raise (mkExn "BadRequest" "failed to decode JSON object")
  end.

(** [body.get('message')]: only a dict has the method. *)
Definition get_message (body : JsonValue) : M JsonValue :=
  match body with
  | JDict members => ret (dict_get "message" members)
  | _ => raise (no_attribute body "get")
  end.

(** [request.form.get('message') or request.json.get('message')] *)
Definition request_message (request : Request) : M JsonValue :=
  match form request !! "message" with
  | Some s =>
      if Py.truthy s then ret (JString s)
      else body <- request_json request ;; get_message body
  | None => body <- request_json request ;; get_message body
  end.

(** One step of the loop of [get_feedback_stats]. *)
Definition tally (stats : Stats.t) (entry : Feedback.t) : Stats.t :=
  let sentiment := Py.lower (Feedback.sentiment entry) in
  if String.eqb sentiment "positive" then
    Stats.mk (S (Stats.positive stats)) (Stats.neutral stats)
             (Stats.negative stats) (Stats.total stats)
  else if String.eqb sentiment "negative" then
    Stats.mk (Stats.positive stats) (Stats.neutral stats)
             (S (Stats.negative stats)) (Stats.total stats)
  else
    Stats.mk (Stats.positive stats) (S (Stats.neutral stats))
             (Stats.negative stats) (Stats.total stats).

Definition get_feedback_stats : M Stats.t :=
  authenticated <- gets logged_in ;;
  if negb authenticated then ret (Stats.mk 0 0 0 0)
  else
    uid <- session_user_id ;;
    feedback_entries <- feedback_by_user uid ;;
    ret (foldl tally (Stats.mk 0 0 0 (length feedback_entries)) feedback_entries).

(** [Feedback.timestamp.desc()] *)
Definition newer_first (a b : Feedback.t) : Prop :=
  (Feedback.timestamp b <= Feedback.timestamp a)%Z.

#[global] Instance newer_first_dec : RelDecision newer_first :=
  fun a b => decide (Feedback.timestamp b <= Feedback.timestamp a)%Z.

(** [Feedback.query.filter_by(user_id=uid)
      .order_by(Feedback.timestamp.desc()).limit(10).all()].  The query
    leaves the order among rows with equal timestamps to the database; the
    sort used here makes a choice of its own. *)
Definition recent_feedback_of (uid : Z) : M (list Feedback.t) :=
  fun w =>
    (Returns
       (take 10
          (merge_sort newer_first
             (List.filter (fun f => Z.eqb (Feedback.user_id f) uid) (feedback w)))),
     set_trace (trace w ++ [Select "feedback"]) w).

Section Views.
Context {ext : Externals}.

Definition analyze_sentiment (text : string) : M string :=
  try_except
    (polarity <- (fun w => (textblob_polarity text, w)) ;;
     if (0.1 <? polarity)%float then ret "Positive"
     else if (polarity <? -0.1)%float then ret "Negative"
     else ret "Neutral")
    (fun e =>
       logging_error ("Error analyzing sentiment: " +:+ str e) ;;;
       ret "Neutral").

Definition index : M Response := render_template "index.html".

Definition login (request : Request) : M Response :=
  match method request with
  | POST =>
      let email := Py.strip (form_get request "email" "") in
      let password := form_get request "password" "" in
      if negb (Py.truthy email) || negb (Py.truthy password) then
        flash "Please fill in all fields." "error" ;;;
        render_template "login.html"
      else
        user <- user_by_email email ;;
        match user with
        | Some u =>
            if check_password_hash (User.password_hash u) password then
              modify (fun w =>
                set_session (<["user_name" := SStr (User.full_name u)]>
                               (<["user_id" := SInt (User.id u)]> (session w))) w) ;;;
              flash "Login successful!" "success" ;;;
              redirect (url_for "home")
            else
              flash "Invalid email or password." "error" ;;;
              render_template "login.html"
        | None =>
            flash "Invalid email or password." "error" ;;;
            render_template "login.html"
        end
  | GET => render_template "login.html"
  end.

Definition signup (request : Request) : M Response :=
  match method request with
  | POST =>
      let full_name := Py.strip (form_get request "full_name" "") in
      let email := Py.strip (form_get request "email" "") in
      let password := form_get request "password" "" in
      if negb (Py.truthy full_name && Py.truthy email && Py.truthy password) then
        flash "Please fill in all fields." "error" ;;;
        render_template "signup.html"
      else
        existing_user <- user_by_email email ;;
        match existing_user with
        | Some _ =>
            flash "Email already registered. Please login instead." "error" ;;;
            render_template "signup.html"
        | None =>
            password_hash <-
              (fun w => (Returns (generate_password_hash (entropy w) password),
                         set_entropy (S (entropy w)) w)) ;;
            try_except
              (db_add (NewUser full_name email password_hash) ;;;
               db_commit ;;;
               flash "Account created successfully! Please log in." "success" ;;;
               redirect (url_for "login"))
              (fun e =>
                 db_rollback ;;;
                 logging_error ("Error creating user: " +:+ str e) ;;;
                 flash "Error creating account. Please try again." "error" ;;;
                 render_template "signup.html")
        end
  | GET => render_template "signup.html"
  end.

Definition home : M Response :=
  authenticated <- gets logged_in ;;
  if negb authenticated then redirect (url_for "login")
  else render_template "home.html".

Definition chat : M Response :=
  authenticated <- gets logged_in ;;
  if negb authenticated then redirect (url_for "login")
  else render_template "chat.html".

Definition chat_api (request : Request) : M Response :=
  authenticated <- gets logged_in ;;
  if negb authenticated then jsonify [("error", "Authentication required")] 401
  else
    user_input <- request_message request ;;
    if negb (json_truthy user_input) then
      jsonify [("error", "Message is required")] 400
    else
      attempt <-
        try_except
          (match user_input with
           | JString text =>
               let ai_reply := get_ai_response (Py.strip text) in
               uid <- session_user_id ;;
               db_add (NewChatHistory uid text ai_reply) ;;;
               db_commit ;;;
               ret (inl (text, ai_reply))
           | _ => raise (no_attribute user_input "strip")
           end)
          (fun e =>
             logging_error ("Chat API error: " +:+ str e) ;;;
             ret (inr (Json [("error",
               "AI service is temporarily unavailable. Please try again later.")]
               503))) ;;
      match attempt with
      | inr response => ret response
      | inl (text, ai_reply) =>
          jsonify [("reply", ai_reply);
                   ("sentiment", chat_sentiment text);
                   ("question", text)] 200
      end.

Definition submit_feedback (request : Request) : M Response :=
  authenticated <- gets logged_in ;;
  if negb authenticated then redirect (url_for "login")
  else
    let question := form_get request "question" "" in
    let feedback_text := Py.strip (form_get request "feedback" "") in
    (if Py.truthy feedback_text then
       sentiment <- analyze_sentiment feedback_text ;;
       uid <- session_user_id ;;
       db_add (NewFeedback uid question feedback_text sentiment) ;;;
       db_commit ;;;
       flash "Thank you for your feedback! It helps us improve our services." "success"
     else ret tt) ;;;
    redirect (url_for "chat").

Definition dashboard : M Response :=
  authenticated <- gets logged_in ;;
  if negb authenticated then redirect (url_for "login")
  else
    stats <- get_feedback_stats ;;
    uid <- session_user_id ;;
    recent_feedback <- recent_feedback_of uid ;;
    ret (Page "dashboard.html" (DashboardContext stats recent_feedback) 200).

Definition about : M Response := render_template "about.html".

(** The flashed messages live in the session, so [session.clear()] drops
    those not yet shown. *)
Definition logout : M Response :=
  modify (fun w => set_flashes [] (set_session ∅ w)) ;;;
  flash "You have been logged out." "info" ;;;
  redirect (url_for "index").

Definition page_not_found : M Response := ret (Page "404.html" NoContext 404).
Definition internal_server_error : M Response := ret (Page "500.html" NoContext 500).
(** A route reached with a method it does not list. *)
Definition method_not_allowed : M Response := ret (Abort 405).

(** The URL map built by the [@app.route] decorators. *)
Definition view (request : Request) : M Response :=
  let rule := path request in
  if String.eqb rule "/" then
    match method request with GET => index | POST => method_not_allowed end
  else if String.eqb rule "/login" then login request
  else if String.eqb rule "/signup" then signup request
  else if String.eqb rule "/home" then
    match method request with GET => home | POST => method_not_allowed end
  else if String.eqb rule "/chat" then
    match method request with GET => chat | POST => chat_api request end
  else if String.eqb rule "/submit_feedback" then
    match method request with GET => method_not_allowed | POST => submit_feedback request end
  else if String.eqb rule "/dashboard" then
    match method request with GET => dashboard | POST => method_not_allowed end
  else if String.eqb rule "/about" then
    match method request with GET => about | POST => method_not_allowed end
  else if String.eqb rule "/logout" then
    match method request with GET => logout | POST => method_not_allowed end
  else page_not_found.

(** One request: the view runs; an HTTP exception that escapes it becomes
    its own response and any other exception the server-error page; then
    the database session is removed, which forgets whatever was still
    pending. *)
Definition handle (request : Request) (w : World) : Response * World :=
  let '(outcome, w') :=
    try_except (view request)
      (fun e =>
         if String.eqb (exn_class e) "UnsupportedMediaType" then ret (Abort 415)
         else if String.eqb (exn_class e) "BadRequest" then ret (Abort 400)
         else internal_server_error) w in
  match outcome with
  | Returns response => (response, set_pending [] w')
  | Raises _ => (Page "500.html" NoContext 500, set_pending [] w')
  end.

End Views.

(** * Vocabulary of the statements *)

(** ** Keyword matching *)

(** [needle] occurs in [text] as a run of consecutive characters. *)
Definition Substring (needle text : string) : Prop :=
  exists before after, text = before +:+ needle +:+ after.

(** Some keyword of [words] occurs in the lower-cased [text]. *)
Definition Mentions (words : list string) (text : string) : Prop :=
  exists word, In word words /\ Substring word (Py.lower text).

(** ** The Responder as the specification words it *)

(** The Responder in the words of the specification: a table of five keyword
    sets with their templates, searched in priority order, and a default. *)
Definition RESPONDER_TABLE : list (list string * string) :=
  [ (["license"; "permit"; "registration"; "id"], TEMPLATE_LICENSES);
    (["vote"; "voting"; "election"; "ballot"], TEMPLATE_VOTING);
    (["tax"; "taxes"; "irs"; "refund"], TEMPLATE_TAX);
    (["social"; "benefits"; "assistance"; "welfare"; "food"; "medicaid"], TEMPLATE_SOCIAL);
    (["court"; "legal"; "lawsuit"; "ticket"; "fine"], TEMPLATE_LEGAL) ].

Definition Responder_spec (question : string) : string :=
  match List.find (fun row => Py.any_in (fst row) (Py.lower question)) RESPONDER_TABLE with
  | Some row => snd row
  | None => TEMPLATE_DEFAULT
  end.

(** ** Rows and counts of the dashboard *)

(** The rows of the [feedback] table owned by [uid]. *)
Definition rows_of (uid : Z) (w : World) : list Feedback.t :=
  List.filter (fun f => Z.eqb (Feedback.user_id f) uid) (feedback w).

(** How many [rows] carry [label], letter case aside. *)
Definition count_label (label : string) (rows : list Feedback.t) : nat :=
  length (List.filter (fun f => String.eqb (Py.lower (Feedback.sentiment f)) label) rows).

(** ** Accounts *)

(** The row [User.query.filter_by(email=email).first()] finds. *)
Definition registered (email : string) (w : World) : option User.t :=
  List.find (fun u => String.eqb (User.email u) email) (users w).

(** The fields of the signup and login forms as the views read them. *)
Definition posted_name (request : Request) : string :=
  Py.strip (form_get request "full_name" "").

Definition posted_email (request : Request) : string :=
  Py.strip (form_get request "email" "").

Definition posted_password (request : Request) : string :=
  form_get request "password" "".

Section Vocabulary.
Context {ext : Externals}.

(** The label [analyze_sentiment] computes for [text]. *)
Definition sentiment_label (text : string) : string :=
  match textblob_polarity text with
  | Returns p =>
      if (0.1 <? p)%float then "Positive"
      else if (p <? -0.1)%float then "Negative"
      else "Neutral"
  | Raises _ => "Neutral"
  end.

(** The lines it writes to the log. *)
Definition sentiment_log (text : string) : list string :=
  match textblob_polarity text with
  | Returns _ => []
  | Raises e => ["Error analyzing sentiment: " +:+ str e]
  end.


End Vocabulary.

(** ** The dashboard's recent feedback *)

(** The rows [dashboard] hands to the template as [recent_feedback]. *)
Definition recent_rows (uid : Z) (w : World) : list Feedback.t :=
  take 10 (merge_sort newer_first (rows_of uid w)).

(** ** The message of a chat request *)

(** The form has no usable [message] field: none, or an empty one. *)
Definition no_form_message (request : Request) : Prop :=
  form request !! "message" = None \/ form request !! "message" = Some "".

(** [m] is the text [chat_api] works on: the form field when it is present
    and non-empty, and otherwise the [message] member of a JSON object,
    when that member is a string. *)
Definition chat_message (request : Request) (m : string) : Prop :=
  m <> ""
  /\ (form request !! "message" = Some m
      \/ (no_form_message request
          /\ exists members,
               json request = Parsed (JDict members)
               /\ dict_get "message" members = JString m)).

(** The body is a JSON object that has no usable [message] member either:
    none, or one that is falsy ([null], [false], zero, an empty string,
    list or object). *)
Definition no_json_message (request : Request) : Prop :=
  exists members,
    json request = Parsed (JDict members)
    /\ json_truthy (dict_get "message" members) = false.

(** The body is a JSON object whose [message] member is truthy and not a
    string: [v] is that member. *)
Definition json_message_not_text (request : Request) (v : JsonValue) : Prop :=
  (exists members,
     json request = Parsed (JDict members) /\ dict_get "message" members = v)
  /\ json_truthy v = true
  /\ type_name v <> "str".

(** The body is JSON, but not an object: [null], a list, a number, a
    string or a boolean. *)
Definition json_body_not_object (request : Request) (body : JsonValue) : Prop :=
  json request = Parsed body /\ type_name body <> "dict".

(** ** What a request may change, and what the store keeps *)

(** The three labels [analyze_sentiment] can return. *)
Definition SENTIMENT_LABELS : list string := ["Positive"; "Negative"; "Neutral"].

(** The six replies of [get_ai_response]. *)
Definition TEMPLATES : list string :=
  [TEMPLATE_LICENSES; TEMPLATE_VOTING; TEMPLATE_TAX; TEMPLATE_SOCIAL; TEMPLATE_LEGAL;
   TEMPLATE_DEFAULT].

(** Some row of the user table has primary key [uid]. *)
Definition user_exists (uid : Z) (w : World) : Prop :=
  exists u, In u (users w) /\ User.id u = uid.

Section Store.
Context {ext : Externals}.

(** [pwhash] is what [generate_password_hash] made of some non-empty
    password. *)
Definition hashed (pwhash : string) : Prop :=
  exists salt password, password <> "" /\ pwhash = generate_password_hash salt password.

(** The data a deployment is meant to keep: emails are unique, users have a
    name and an email and their stored password is a hash made by
    [generate_password_hash]; every feedback row carries one of the three
    labels, a non-empty text and the key of an existing user; every chat row
    a non-empty question, one of the six replies and the key of an existing
    user; and a session that is logged in holds the key of an existing
    user. *)
Definition Consistent (w : World) : Prop :=
  NoDup (map User.email (users w))
  /\ (forall u, In u (users w) ->
        User.full_name u <> "" /\ User.email u <> "" /\ hashed (User.password_hash u))
  /\ (forall f, In f (feedback w) ->
        In (Feedback.sentiment f) SENTIMENT_LABELS
        /\ Feedback.feedback_text f <> ""
        /\ user_exists (Feedback.user_id f) w)
  /\ (forall c, In c (chat_history w) ->
        ChatHistory.question c <> ""
        /\ In (ChatHistory.response c) TEMPLATES
        /\ user_exists (ChatHistory.user_id c) w)
  /\ (forall v, session w !! "user_id" = Some v ->
        exists uid, v = SInt uid /\ user_exists uid w).

(** The difference one view may make to the world it ran in: at most one
    row appended to one table, and the session kept, emptied or bound to an
    existing user. *)
Definition Effect (w w' : World) : Prop :=
  (users w' = users w
   \/ exists name email pwhash,
        name <> "" /\ email <> "" /\ hashed pwhash /\ registered email w = None
        /\ users w' =
             users w ++ [User.mk (fresh_id (User.id <$> users w)) name email pwhash (clock w)])
  /\ (chat_history w' = chat_history w
      \/ exists uid question response,
           session w !! "user_id" = Some (SInt uid) /\ question <> ""
           /\ In response TEMPLATES
           /\ chat_history w' =
                chat_history w
                ++ [ChatHistory.mk (fresh_id (ChatHistory.id <$> chat_history w)) uid
                      question response (clock w)])
  /\ (feedback w' = feedback w
      \/ exists uid question text label,
           session w !! "user_id" = Some (SInt uid) /\ text <> ""
           /\ In label SENTIMENT_LABELS
           /\ feedback w' =
                feedback w
                ++ [Feedback.mk (fresh_id (Feedback.id <$> feedback w)) uid question text
                      label (clock w)])
  /\ (session w' = session w
      \/ session w' = ∅
      \/ exists u, In u (users w)
                   /\ session w' =
                        <["user_name" := SStr (User.full_name u)]>
                          (<["user_id" := SInt (User.id u)]> (session w)))
  /\ writable w' = writable w /\ clock w' = clock w.

End Store.

(** How many [rows] carry exactly [label]. *)
Definition count_exact (label : string) (rows : list Feedback.t) : nat :=
  length (List.filter (fun f => String.eqb (Feedback.sentiment f) label) rows).

(** ** Words and the white space around a text *)

(** The last character of [word] is not white space. *)
Fixpoint ends_in_text (word : string) : bool :=
  match word with
  | EmptyString => false
  | String c EmptyString => negb (Py.isspace c)
  | String _ rest => ends_in_text rest
  end.

(** The first character of [word] is not white space. *)
Definition starts_in_text (word : string) : bool :=
  match word with
  | EmptyString => false
  | String c _ => negb (Py.isspace c)
  end.

(** ** Outcomes of a view *)




(** ** Any sequence of requests *)

(** What the surroundings decide before a request is handled: whether the
    database will accept a commit, and the time. *)
Definition set_environment (accepts_writes : bool) (now : Z) (w : World) : World :=
  mkWorld (users w) (chat_history w) (feedback w) (pending w) (trace w) accepts_writes
          now (entropy w) (session w) (flashes w) (log w).

(** One browser sending requests one after the other, each arriving with
    its own state of the surroundings. *)
Definition serve {ext : Externals} (arrivals : list (bool * Z * Request)) (w : World)
    : World :=
  foldl (fun w arrival =>
           snd (handle (snd arrival) (set_environment (fst (fst arrival)) (snd (fst arrival)) w)))
        w arrivals.

(** ** A stand-in for the libraries and sample worlds, to run the views on
    concrete inputs *)

(** A scorer that knows two words and fails on the text "crash". *)
Definition stub_polarity (text : string) : Outcome float :=
  if String.eqb text "crash" then Raises (mkExn "ValueError" "scorer failed")
  else if Py.contains "great" (Py.lower text) then Returns 0.5%float
  else if Py.contains "terrible" (Py.lower text) then Returns (-0.5)%float
  else Returns 0%float.

(** A password "hash" that can be checked by comparison. *)
Definition stub_externals : Externals := {|
  textblob_polarity := stub_polarity;
  generate_password_hash := fun _ password => "plain$" +:+ password;
  check_password_hash := fun pwhash password => String.eqb pwhash ("plain$" +:+ password)
|}.

(** A world with one account, logged in, and three feedback rows of that
    account next to one of somebody else. *)
Definition sample_world : World :=
  mkWorld
    [User.mk 1 "Ann" "ann@example.org" "plain$secret" 0]
    []
    [Feedback.mk 1 1 "q1" "great help" "Positive" 1;
     Feedback.mk 2 2 "q2" "meh" "Neutral" 2;
     Feedback.mk 3 1 "q3" "terrible" "NEGATIVE" 3;
     Feedback.mk 4 1 "q4" "great" "positive" 4]
    [] [] true 5 0
    (<["user_name" := SStr "Ann"]> (<["user_id" := SInt 1]> ∅))
    [] [].

(** [sample_world] with a database that refuses the next commit. *)
Definition locked_world : World :=
  mkWorld (users sample_world) (chat_history sample_world) (feedback sample_world)
          [] [] false 5 0 (session sample_world) [] [].

Definition anonymous_world : World :=
  mkWorld (users sample_world) [] (feedback sample_world) [] [] true 5 0 ∅ [] [].

Definition signup_request : Request :=
  mkRequest POST "/signup"
    (<["full_name" := "Bob"]>
       (<["email" := "bob@example.org"]> (<["password" := "hunter2"]> ∅))) NotJson.

(** A second signup with Bob's email, another name and another password,
    and one that leaves the password out. *)
Definition second_signup_request : Request :=
  mkRequest POST "/signup"
    (<["full_name" := "Robert"]>
       (<["email" := " bob@example.org "]> (<["password" := "other"]> ∅))) NotJson.

Definition incomplete_signup_request : Request :=
  mkRequest POST "/signup"
    (<["full_name" := "Carol"]> (<["email" := "carol@example.org"]> ∅)) NotJson.

(** The world after Bob has signed up in [sample_world]. *)
Definition world_with_bob : World :=
  snd (@signup stub_externals signup_request sample_world).

Definition login_request (password : string) : Request :=
  mkRequest POST "/login"
    (<["email" := "bob@example.org"]> (<["password" := password]> ∅)) NotJson.

Definition chat_request : Request :=
  mkRequest POST "/chat" (<["message" := "How do I renew my permit?"]> ∅) NotJson.

Definition dashboard_request : Request := mkRequest GET "/dashboard" ∅ NotJson.

(** A feedback form whose text is white space only, and one with text. *)
Definition blank_feedback_request : Request :=
  mkRequest POST "/submit_feedback"
    (<["feedback" := "   "]> (<["question" := "How do I renew my permit?"]> ∅)) NotJson.

Definition feedback_request : Request :=
  mkRequest POST "/submit_feedback"
    (<["feedback" := "  great answer "]> (<["question" := "How do I renew my permit?"]> ∅))
    NotJson.

(** The world after [db.create_all()] on a new database, with a new
    browser session. *)
Definition initial_world : World :=
  mkWorld [] [] [] [] [] true 0 0 ∅ [] [].

(** A visit: sign up, log in, ask a question while the database is locked,
    ask it again, leave feedback, look at the dashboard, log out. *)
Definition sample_visit : list (bool * Z * Request) :=
  [ (true, 10%Z, signup_request);
    (true, 11%Z, login_request "hunter2");
    (false, 12%Z, chat_request);
    (true, 13%Z, chat_request);
    (true, 14%Z, feedback_request);
    (true, 15%Z, dashboard_request);
    (true, 16%Z, mkRequest GET "/logout" ∅ NotJson) ].

(** Thirty feedback rows, every other one Ann's, with timestamps out of
    order. *)
Definition crowded_world : World :=
  mkWorld
    [User.mk 1 "Ann" "ann@example.org" "plain$secret" 0]
    []
    (map (fun n => Feedback.mk (Z.of_nat n) (if Nat.even n then 1 else 2) "q" "text"
                     "Neutral" (Z.of_nat (n * 7 mod 23)))
         (seq 1 30))
    [] [] true 40 0
    (<["user_name" := SStr "Ann"]> (<["user_id" := SInt 1]> ∅))
    [] [].

(** [sample_world] as the application itself would have left it: every
    feedback row owned by Ann and labelled by [analyze_sentiment]. *)
Definition tidy_world : World :=
  mkWorld
    [User.mk 1 "Ann" "ann@example.org" "plain$secret" 0]
    []
    [Feedback.mk 1 1 "q1" "great help" "Positive" 1;
     Feedback.mk 2 1 "q2" "meh" "Neutral" 2;
     Feedback.mk 3 1 "q3" "terrible" "Negative" 3;
     Feedback.mk 4 1 "q4" "great" "Positive" 4]
    [] [] true 5 0
    (<["user_name" := SStr "Ann"]> (<["user_id" := SInt 1]> ∅))
    [] [].

(** A chat request with a JSON body, and a login with an email nobody
    registered. *)
Definition json_chat_request (message : JsonValue) : Request :=
  mkRequest POST "/chat" ∅ (Parsed (JDict [("message", message)])).

Definition unknown_login_request : Request :=
  mkRequest POST "/login"
    (<["email" := "nobody@example.org"]> (<["password" := "hunter2"]> ∅)) NotJson.

(** A stand-in hash that, like the HMAC-based ones of werkzeug, does not
    see NUL bytes at the end of a short password. *)
Fixpoint strip_nul (s : string) : string :=
  match s with
  | EmptyString => EmptyString
  | String c s' =>
      match strip_nul s' with
      | EmptyString => if Ascii.eqb c "000" then EmptyString else String c EmptyString
      | t => String c t
      end
  end.

Definition padding_externals : Externals := {|
  textblob_polarity := stub_polarity;
  generate_password_hash := fun _ password => "hmac$" +:+ strip_nul password;
  check_password_hash :=
    fun pwhash password => String.eqb pwhash ("hmac$" +:+ strip_nul password)
|}.

(** * Properties *)

(** ** Substring containment *)

Lemma startswith_spec (p s : string) :
  Py.startswith p s = true <-> exists after, s = p +:+ after.
Proof.
  revert s. induction p as [|a p IH]; intros [|b s]; simpl.
  - split; [exists ""; reflexivity | reflexivity].
  - split; [eexists; reflexivity | reflexivity].
  - split; [discriminate | intros [t Ht]; discriminate Ht].
  - rewrite andb_true_iff, Ascii.eqb_eq, IH. split.
    + intros [-> [t ->]]. exists t. reflexivity.
    + intros [t Ht]. injection Ht as -> ->. split; [reflexivity | eauto].
Qed.

Lemma contains_spec (needle hay : string) :
  Py.contains needle hay = true <-> Substring needle hay.
Proof.
  unfold Substring. induction hay as [|c hay IH]; simpl.
  - rewrite orb_false_r, startswith_spec. split.
    + intros [t Ht]. exists "", t. exact Ht.
    + intros [[|b pre] [post H]]; [eauto | discriminate H].
  - rewrite orb_true_iff, startswith_spec, IH. split.
    + intros [[t Ht] | (pre & post & ->)].
      * exists "", t. exact Ht.
      * exists (String c pre), post. reflexivity.
    + intros [[|b pre] [post H]].
      * left. exists post. exact H.
      * right. injection H as -> ->. eauto.
Qed.

Lemma any_in_spec (words : list string) (text : string) :
  Py.any_in words text = true <-> exists word, In word words /\ Substring word text.
Proof.
  unfold Py.any_in. rewrite existsb_exists.
  split; intros (word & Hin & H); exists word; split; auto; now apply contains_spec.
Qed.

Lemma any_in_lower_spec (words : list string) (text : string) :
  Py.any_in words (Py.lower text) = true <-> Mentions words text.
Proof. apply any_in_spec. Qed.

Lemma any_in_lower_false (words : list string) (text : string) :
  Py.any_in words (Py.lower text) = false <-> ~ Mentions words text.
Proof.
  rewrite <- any_in_lower_spec. destruct (Py.any_in words (Py.lower text)); intuition congruence.
Qed.

Example lower_example : Py.lower "Can I VOTE after Paying my Tax?" = "can i vote after paying my tax?".
Proof. reflexivity. Qed.

Example strip_example :
  Py.strip "  two words
 " = "two words".
Proof. reflexivity. Qed.

Example strip_blank_example :
  Py.strip "
   " = "".
Proof. reflexivity. Qed.

Example contains_example :
  Py.contains "id" "president" = true /\ Py.contains "tax" "taxi" = true
  /\ Py.contains "vote" "veto" = false.
Proof. repeat split. Qed.

(** ** The Responder *)

Lemma voting_template_is_not_tax_template : String.eqb TEMPLATE_VOTING TEMPLATE_TAX = false.
Proof. vm_compute. reflexivity. Qed.

(** C1. [get_ai_response] depends on the question alone; it lower-cases it
    and answers with the template of the first keyword set, in the order
    licenses, voting, tax, social services, legal, that has a keyword
    occurring in it, and with the default template when none has.  A
    question that mentions a voting keyword and a tax keyword and no licence
    keyword gets the voting template, which is not the tax template. *)
Theorem get_ai_response_first_match (question : string) :
  get_ai_response question = Responder_spec question
  /\ (~ Mentions LICENSE_WORDS question ->
      Mentions VOTING_WORDS question ->
      Mentions TAX_WORDS question ->
      get_ai_response question = TEMPLATE_VOTING
      /\ get_ai_response question <> TEMPLATE_TAX).
Proof.
  split.
  - cbv [get_ai_response Responder_spec RESPONDER_TABLE List.find fst snd].
    change ["license"; "permit"; "registration"; "id"] with LICENSE_WORDS.
    change ["vote"; "voting"; "election"; "ballot"] with VOTING_WORDS.
    change ["tax"; "taxes"; "irs"; "refund"] with TAX_WORDS.
    change ["social"; "benefits"; "assistance"; "welfare"; "food"; "medicaid"]
      with SOCIAL_WORDS.
    change ["court"; "legal"; "lawsuit"; "ticket"; "fine"] with LEGAL_WORDS.
    repeat match goal with
           | |- context [Py.any_in ?ws ?t] => destruct (Py.any_in ws t)
           end; reflexivity.
  - intros Hlic Hvote _.
    apply any_in_lower_false in Hlic. apply any_in_lower_spec in Hvote.
    unfold get_ai_response. rewrite Hlic, Hvote.
    split; [reflexivity | apply String.eqb_neq, voting_template_is_not_tax_template].
Qed.

Lemma get_ai_response_first_match_witness :
  get_ai_response "Can I vote after paying my tax?" = TEMPLATE_VOTING
  /\ get_ai_response "Can I vote after paying my tax?" <> TEMPLATE_TAX.
Proof.
  apply (get_ai_response_first_match "Can I vote after paying my tax?").
  - apply any_in_lower_false. vm_compute. reflexivity.
  - apply any_in_lower_spec. vm_compute. reflexivity.
  - apply any_in_lower_spec. vm_compute. reflexivity.
Defined.

(** ** The chat-turn classifier *)

Lemma chat_sentiment_cases (user_input : string) :
  chat_sentiment user_input =
    if Py.any_in NEGATIVE_WORDS (Py.lower user_input) then "negative"
    else if Py.any_in POSITIVE_WORDS (Py.lower user_input) then "positive"
    else "neutral".
Proof. reflexivity. Qed.

(** C3. The chat-turn classifier looks at the lower-cased input: it answers
    "negative" exactly when one of the eight negative words occurs in it,
    "positive" exactly when none of them does and one of the eight positive
    words occurs, and "neutral" exactly when neither list has a word in it.
    An input with a negative and a positive word is therefore "negative". *)
Theorem chat_sentiment_negative_first (user_input : string) :
  NEGATIVE_WORDS =
    ["angry"; "frustrated"; "upset"; "hate"; "terrible"; "awful"; "disappointed"; "bad"]
  /\ POSITIVE_WORDS =
    ["happy"; "great"; "excellent"; "love"; "amazing"; "wonderful"; "good"; "satisfied"]
  /\ (chat_sentiment user_input = "negative" <-> Mentions NEGATIVE_WORDS user_input)
  /\ (chat_sentiment user_input = "positive" <->
        ~ Mentions NEGATIVE_WORDS user_input /\ Mentions POSITIVE_WORDS user_input)
  /\ (chat_sentiment user_input = "neutral" <->
        ~ Mentions NEGATIVE_WORDS user_input /\ ~ Mentions POSITIVE_WORDS user_input)
  /\ (Mentions NEGATIVE_WORDS user_input -> Mentions POSITIVE_WORDS user_input ->
        chat_sentiment user_input = "negative").
Proof.
  rewrite chat_sentiment_cases.
  rewrite <- !any_in_lower_false, <- !any_in_lower_spec.
  destruct (Py.any_in NEGATIVE_WORDS (Py.lower user_input)),
           (Py.any_in POSITIVE_WORDS (Py.lower user_input));
    repeat split; intros; try reflexivity; try discriminate;
    repeat match goal with H : _ /\ _ |- _ => destruct H end; discriminate.
Qed.

Lemma chat_sentiment_negative_first_witness :
  chat_sentiment "I love the idea but I am angry about the delay" = "negative".
Proof.
  apply (chat_sentiment_negative_first "I love the idea but I am angry about the delay").
  - apply any_in_lower_spec. vm_compute. reflexivity.
  - apply any_in_lower_spec. vm_compute. reflexivity.
Defined.

(** ** Keywords match inside longer words *)



(** ** The feedback classifier *)

(** Nothing is both above 0.1 and below -0.1: the two comparisons of
    [analyze_sentiment] never hold together, NaN and the infinities
    included. *)
Lemma below_is_not_above (p : float) :
  (p <? -0.1)%float = true -> (0.1 <? p)%float = false.
Proof.
  rewrite !ltb_spec.
  change (Prim2SF (-0.1)%float) with (S754_finite true 7205759403792794 (-56)).
  change (Prim2SF 0.1%float) with (S754_finite false 7205759403792794 (-56)).
  unfold SFltb.
  destruct (Prim2SF p) as [[|]|[|]| |[|] m e];
    cbv beta iota delta [SFcompare]; intros H; reflexivity || discriminate H.
Qed.

Section Feedback_classifier.
Context {ext : Externals}.

(** C2. [analyze_sentiment] always returns a label and never raises.  When
    the scorer yields a polarity, the label is "Positive" exactly when the
    polarity is above 0.1, "Negative" exactly when it is below -0.1 and
    "Neutral" exactly when it is neither; when the scorer raises, the label
    is "Neutral" and the only trace of the error is one line in the log. *)
Theorem analyze_sentiment_buckets (text : string) (w : World) :
  exists label w',
    analyze_sentiment text w = (Returns label, w')
    /\ (forall p, textblob_polarity text = Returns p ->
          w' = w
          /\ (label = "Positive" <-> (0.1 <? p)%float = true)
          /\ (label = "Negative" <-> (p <? -0.1)%float = true)
          /\ (label = "Neutral" <->
                (0.1 <? p)%float = false /\ (p <? -0.1)%float = false))
    /\ (forall e, textblob_polarity text = Raises e ->
          label = "Neutral"
          /\ w' = set_log (log w ++ ["Error analyzing sentiment: " +:+ str e]) w).
Proof.
  unfold analyze_sentiment, try_except, bind.
  destruct (textblob_polarity text) as [p | e] eqn:Hscore.
  - destruct (0.1 <? p)%float eqn:Hpos; [| destruct (p <? -0.1)%float eqn:Hneg];
      eexists _, _; (split; [reflexivity |]);
      (split; [| intros e He; discriminate He]);
      intros q Hq; injection Hq as <-;
      rewrite ?Hpos, ?Hneg; repeat split; try discriminate; try reflexivity;
      try (intros [? ?]; discriminate).
    intros Hbelow. apply below_is_not_above in Hbelow. congruence.
  - eexists _, _. split; [reflexivity |].
    split; [intros q Hq; discriminate Hq |].
    intros e' He'. injection He' as <-. split; reflexivity.
Qed.

End Feedback_classifier.

Lemma analyze_sentiment_buckets_witness :
  exists label w',
    @analyze_sentiment stub_externals "great answer" sample_world = (Returns label, w')
    /\ label = "Positive".
Proof.
  destruct (@analyze_sentiment_buckets stub_externals "great answer" sample_world)
    as (label & w' & Hrun & Hscore & _).
  exists label, w'. split; [exact Hrun |].
  destruct (Hscore 0.5%float eq_refl) as (_ & Hpositive & _).
  apply Hpositive. reflexivity.
Defined.

(** The scores 0.5, -0.5 and 0.0 and a failing scorer, on the stand-in. *)
Example analyze_sentiment_examples :
  @analyze_sentiment stub_externals "great answer" sample_world
  = (Returns "Positive", sample_world)
  /\ @analyze_sentiment stub_externals "terrible answer" sample_world
     = (Returns "Negative", sample_world)
  /\ @analyze_sentiment stub_externals "an answer" sample_world
     = (Returns "Neutral", sample_world)
  /\ @analyze_sentiment stub_externals "crash" sample_world
     = (Returns "Neutral",
        set_log ["Error analyzing sentiment: scorer failed"] sample_world).
Proof. repeat split. Qed.

(** ** Dashboard statistics *)

Lemma tally_fold (rows : list Feedback.t) (s : Stats.t) :
  foldl tally s rows =
    Stats.mk (Stats.positive s + count_label "positive" rows)
             (Stats.neutral s
              + (length rows - count_label "positive" rows - count_label "negative" rows))
             (Stats.negative s + count_label "negative" rows)
             (Stats.total s)
  /\ count_label "positive" rows + count_label "negative" rows <= length rows.
Proof.
  revert s. unfold count_label.
  induction rows as [|f rows IH]; intros s; simpl.
  - destruct s; simpl. rewrite !Nat.add_0_r. split; [reflexivity | lia].
  - destruct (IH (tally s f)) as [-> Hle]. unfold tally.
    destruct (String.eqb (Py.lower (Feedback.sentiment f)) "positive") eqn:Hp.
    + apply String.eqb_eq in Hp. rewrite Hp. simpl. split; [f_equal; lia | lia].
    + destruct (String.eqb (Py.lower (Feedback.sentiment f)) "negative") eqn:Hn;
        simpl; (split; [f_equal; lia | lia]).
Qed.

Lemma count_neutral (rows : list Feedback.t) :
  (forall f, In f rows ->
     In (Py.lower (Feedback.sentiment f)) ["positive"; "negative"; "neutral"]) ->
  length rows - count_label "positive" rows - count_label "negative" rows
  = count_label "neutral" rows.
Proof.
  unfold count_label. induction rows as [|f rows IH]; intros Hall; [reflexivity |].
  assert (Hrest : forall g, In g rows ->
            In (Py.lower (Feedback.sentiment g)) ["positive"; "negative"; "neutral"])
    by (intros g Hg; apply Hall; right; exact Hg).
  specialize (IH Hrest).
  pose proof (proj2 (tally_fold rows (Stats.mk 0 0 0 0))) as Hle. unfold count_label in Hle.
  destruct (Hall f (or_introl eq_refl)) as [H | [H | [H | []]]];
    simpl; rewrite <- H; simpl; lia.
Qed.

Lemma logged_in_true (w : World) (v : SessVal) :
  session w !! "user_id" = Some v -> logged_in w = true.
Proof. intros H. unfold logged_in. apply bool_decide_eq_true_2. rewrite H. eauto. Qed.

Lemma logged_in_false (w : World) :
  session w !! "user_id" = None -> logged_in w = false.
Proof.
  intros H. unfold logged_in. apply bool_decide_eq_false_2. rewrite H.
  intros [v Hv]. discriminate Hv.
Qed.

Lemma get_feedback_stats_run (w : World) (uid : Z) :
  session w !! "user_id" = Some (SInt uid) ->
  get_feedback_stats w =
    (Returns (foldl tally (Stats.mk 0 0 0 (length (rows_of uid w))) (rows_of uid w)),
     set_trace (trace w ++ [Select "feedback"]) w).
Proof.
  intros Hsession.
  unfold get_feedback_stats, bind, gets.
  rewrite (logged_in_true w _ Hsession). cbn [negb].
  unfold session_user_id. rewrite Hsession. reflexivity.
Qed.

(** C9. For the user of the session, [get_feedback_stats] reads exactly the
    feedback rows owned by that user and changes no table; [positive] and
    [negative] count the rows whose label is that word in any letter case,
    [neutral] counts all the others (the rows labelled "neutral" when every
    label is one of the three), [total] is the number of the user's rows and
    the sum of the three counts, and all four are zero when the user has no
    row. *)
Theorem get_feedback_stats_tallies (w : World) (uid : Z) :
  session w !! "user_id" = Some (SInt uid) ->
  exists stats,
    get_feedback_stats w = (Returns stats, set_trace (trace w ++ [Select "feedback"]) w)
    /\ Stats.positive stats = count_label "positive" (rows_of uid w)
    /\ Stats.negative stats = count_label "negative" (rows_of uid w)
    /\ Stats.neutral stats
       = length (rows_of uid w) - count_label "positive" (rows_of uid w)
         - count_label "negative" (rows_of uid w)
    /\ ((forall f, In f (rows_of uid w) ->
           In (Py.lower (Feedback.sentiment f)) ["positive"; "negative"; "neutral"]) ->
        Stats.neutral stats = count_label "neutral" (rows_of uid w))
    /\ Stats.total stats = length (rows_of uid w)
    /\ Stats.total stats
       = Stats.positive stats + Stats.neutral stats + Stats.negative stats
    /\ (rows_of uid w = [] -> stats = Stats.mk 0 0 0 0).
Proof.
  intros Hsession. rewrite (get_feedback_stats_run w uid Hsession).
  destruct (tally_fold (rows_of uid w) (Stats.mk 0 0 0 (length (rows_of uid w))))
    as [-> Hle].
  eexists. split; [reflexivity |]. cbn [Stats.positive Stats.negative Stats.neutral Stats.total].
  repeat split; try reflexivity.
  - intros Hall. apply count_neutral, Hall.
  - lia.
  - intros ->. reflexivity.
Qed.

Lemma get_feedback_stats_tallies_witness :
  exists stats,
    get_feedback_stats sample_world
    = (Returns stats, set_trace (trace sample_world ++ [Select "feedback"]) sample_world)
    /\ stats = Stats.mk 2 0 1 3.
Proof.
  destruct (get_feedback_stats_tallies sample_world 1 eq_refl)
    as (stats & Hrun & Hpos & Hneg & Hneu & _ & Htot & _).
  exists stats. split; [exact Hrun |].
  destruct stats as [p n g t]. cbn in Hpos, Hneg, Hneu, Htot.
  vm_compute in Hpos, Hneg, Hneu, Htot. congruence.
Defined.

(** ** Feedback submission *)

Lemma world_eta (w : World) :
  mkWorld (users w) (chat_history w) (feedback w) (pending w) (trace w) (writable w)
          (clock w) (entropy w) (session w) (flashes w) (log w) = w.
Proof. destruct w; reflexivity. Qed.

(** Reading a field of a world built by setters and commits. *)
Ltac world_simpl :=
  cbn [users chat_history feedback pending trace writable clock entropy session
       flashes log set_users set_chat_history set_feedback set_pending set_trace
       set_entropy set_session set_flashes set_log write foldl app fst snd].

Section Feedback_submission.
Context {ext : Externals}.

Lemma analyze_sentiment_run (text : string) (w : World) :
  analyze_sentiment text w
  = (Returns (sentiment_label text), set_log (log w ++ sentiment_log text) w).
Proof.
  unfold analyze_sentiment, sentiment_label, sentiment_log, try_except, bind.
  destruct (textblob_polarity text) as [p | e].
  - rewrite app_nil_r. unfold set_log. rewrite world_eta.
    destruct (0.1 <? p)%float; [| destruct (p <? -0.1)%float]; reflexivity.
  - reflexivity.
Qed.

Lemma sentiment_label_valid (text : string) :
  In (sentiment_label text) ["Positive"; "Negative"; "Neutral"].
Proof.
  unfold sentiment_label.
  destruct (textblob_polarity text) as [p | e]; [| simpl; auto].
  destruct (0.1 <? p)%float; [| destruct (p <? -0.1)%float]; simpl; auto.
Qed.

(** C4. For a logged-in user, [submit_feedback] with a feedback text that
    is empty once stripped returns the redirect to the chat page and leaves
    the world as it was: no row, no flashed message, no database call.
    With a non-empty stripped text, on a database that accepts the commit,
    it appends exactly one row to the feedback table, owned by the user and
    carrying the stripped text and the label of [analyze_sentiment], leaves
    the other tables alone, and returns the same redirect. *)
Theorem submit_feedback_inserts_iff_nonempty
    (request : Request) (w : World) (uid : Z) :
  session w !! "user_id" = Some (SInt uid) ->
  pending w = [] ->
  let question := form_get request "question" "" in
  let feedback_text := Py.strip (form_get request "feedback" "") in
  (feedback_text = "" ->
     submit_feedback request w = (Returns (Redirect "/chat"), w))
  /\ (feedback_text <> "" -> writable w = true ->
        exists w',
          submit_feedback request w = (Returns (Redirect "/chat"), w')
          /\ feedback w' =
               feedback w
               ++ [Feedback.mk (fresh_id (Feedback.id <$> feedback w)) uid question
                     feedback_text (sentiment_label feedback_text) (clock w)]
          /\ length (feedback w') = S (length (feedback w))
          /\ users w' = users w
          /\ chat_history w' = chat_history w
          /\ pending w' = []
          /\ flashes w' =
               flashes w
               ++ [("success",
                    "Thank you for your feedback! It helps us improve our services.")]).
Proof.
  intros Hsession Hpending question feedback_text. split.
  - intros Hempty. unfold submit_feedback, bind, gets.
    rewrite (logged_in_true w _ Hsession). cbn [negb].
    fold feedback_text. rewrite Hempty. reflexivity.
  - intros Hne Hwritable. unfold submit_feedback, bind, gets.
    rewrite (logged_in_true w _ Hsession). cbn [negb].
    fold feedback_text. fold question.
    destruct feedback_text as [|c rest] eqn:Htext; [congruence |].
    cbn [Py.truthy]. rewrite analyze_sentiment_run.
    unfold session_user_id. cbn [session set_log]. rewrite Hsession.
    unfold db_add, db_commit, modify, flash, redirect, ret.
    world_simpl. rewrite Hwritable, Hpending.
    eexists. split; [reflexivity |]. world_simpl.
    repeat split. rewrite length_app. cbn [length]. lia.
Qed.

End Feedback_submission.

Lemma submit_feedback_inserts_iff_nonempty_witness :
  @submit_feedback stub_externals blank_feedback_request sample_world
  = (Returns (Redirect "/chat"), sample_world)
  /\ exists w',
       @submit_feedback stub_externals feedback_request sample_world
       = (Returns (Redirect "/chat"), w')
       /\ length (feedback w') = 5.
Proof.
  split.
  - apply (proj1 (@submit_feedback_inserts_iff_nonempty stub_externals
                    blank_feedback_request sample_world 1 eq_refl eq_refl)).
    vm_compute. reflexivity.
  - destruct (proj2 (@submit_feedback_inserts_iff_nonempty stub_externals
                       feedback_request sample_world 1 eq_refl eq_refl))
      as (w' & Hrun & _ & Hlen & _).
    + vm_compute. discriminate.
    + reflexivity.
    + exists w'. split; [exact Hrun | exact Hlen].
Defined.

(** ** A commit that fails *)

(** C5. What the three writing views do when the commit is refused.  The
    chat API answers with the 503 JSON error and asks for no rollback.
    [signup] rolls back and flashes an error.  [submit_feedback] has no handler at all: the
    exception leaves the view, nothing is flashed, no rollback is asked for,
    and the client gets the server-error page.  No table changes in any of
    the three. *)
Theorem commit_failure_is_not_handled_by_submit_feedback :
  chat_api chat_request locked_world
  = (Returns (Json [("error",
       "AI service is temporarily unavailable. Please try again later.")] 503),
     set_log ["Chat API error: database is locked"]
       (set_trace [Add; Commit] locked_world))
  /\ @signup stub_externals signup_request locked_world
     = (Returns (Page "signup.html" NoContext 200),
        set_flashes [("error", "Error creating account. Please try again.")]
          (set_log ["Error creating user: database is locked"]
             (set_entropy 1
                (set_trace [Select "user"; Add; Commit; Rollback] locked_world))))
  /\ @submit_feedback stub_externals feedback_request locked_world
     = (Raises (mkExn "OperationalError" "database is locked"),
        set_trace [Add; Commit] locked_world)
  /\ @handle stub_externals feedback_request locked_world
     = (Page "500.html" NoContext 500, set_trace [Add; Commit] locked_world).
Proof.
  repeat split; vm_compute; reflexivity.
Qed.

(** ** Requests without a session *)

Section Unauthenticated.
Context {ext : Externals}.

Lemma view_at (request : Request) (m : Method) (rule : string) :
  method request = m -> path request = rule ->
  view request = view (mkRequest m rule (form request) (json request)).
Proof. intros <- <-. destruct request; reflexivity. Qed.

(** C8. Without [user_id] in the session, a GET of /dashboard is answered
    with a redirect to /login and a POST to /chat with the JSON body
    [{"error": "Authentication required"}] and status 401, both through
    the dispatcher and with the world untouched.  The other guarded
    pages, /home, GET /chat and /submit_feedback, redirect to /login as
    well: the POST to /chat is the only route that answers 401. *)
Theorem unauthenticated_redirect_or_401 (request : Request) (w : World) :
  session w !! "user_id" = None ->
  (method request = GET -> path request = "/dashboard" ->
     view request w = (Returns (Redirect "/login"), w)
     /\ fst (handle request w) = Redirect "/login")
  /\ (method request = POST -> path request = "/chat" ->
        view request w = (Returns (Json [("error", "Authentication required")] 401), w)
        /\ fst (handle request w) = Json [("error", "Authentication required")] 401)
  /\ (method request = GET -> path request = "/home" ->
        view request w = (Returns (Redirect "/login"), w))
  /\ (method request = GET -> path request = "/chat" ->
        view request w = (Returns (Redirect "/login"), w))
  /\ (method request = POST -> path request = "/submit_feedback" ->
        view request w = (Returns (Redirect "/login"), w)).
Proof.
  intros Hsession. pose proof (logged_in_false w Hsession) as Hout.
  split; [| split; [| split; [| split]]]; intros Hm Hp;
    unfold handle, try_except; rewrite (view_at request _ _ Hm Hp);
    cbn [view path method String.eqb Ascii.eqb Bool.eqb];
    unfold dashboard, chat_api, home, chat, submit_feedback, bind, gets;
    rewrite Hout; try split; reflexivity.
Qed.

End Unauthenticated.

Lemma unauthenticated_redirect_or_401_witness :
  (@view stub_externals dashboard_request anonymous_world
   = (Returns (Redirect "/login"), anonymous_world)
   /\ fst (@handle stub_externals dashboard_request anonymous_world) = Redirect "/login")
  /\ (@view stub_externals chat_request anonymous_world
      = (Returns (Json [("error", "Authentication required")] 401), anonymous_world)
      /\ fst (@handle stub_externals chat_request anonymous_world)
         = Json [("error", "Authentication required")] 401).
Proof.
  split.
  - apply (@unauthenticated_redirect_or_401 stub_externals
             dashboard_request anonymous_world eq_refl); reflexivity.
  - apply (@unauthenticated_redirect_or_401 stub_externals
             chat_request anonymous_world eq_refl); reflexivity.
Defined.

(** ** Accounts: signup and login *)

Lemma truthy_false (s : string) : Py.truthy s = false <-> s = "".
Proof. destruct s; simpl; split; congruence. Qed.

Lemma truthy_true (s : string) : Py.truthy s = true <-> s <> "".
Proof. destruct s; simpl; split; congruence. Qed.

Lemma find_app_fresh {A} (f : A -> bool) (l more : list A) :
  List.find f l = None -> List.find f (l ++ more) = List.find f more.
Proof.
  induction l as [|a l IH]; simpl; [trivial |].
  destruct (f a); [discriminate | exact IH].
Qed.

Section Accounts.
Context {ext : Externals}.

Lemma signup_invalid_run (request : Request) (w : World) :
  method request = POST ->
  posted_name request = "" \/ posted_email request = "" \/ posted_password request = "" ->
  signup request w
  = (Returns (Page "signup.html" NoContext 200),
     set_flashes (flashes w ++ [("error", "Please fill in all fields.")]) w).
Proof.
  intros Hm Hbad. unfold signup. rewrite Hm.
  fold (posted_name request) (posted_email request) (posted_password request).
  replace (Py.truthy (posted_name request) && Py.truthy (posted_email request)
           && Py.truthy (posted_password request)) with false; [reflexivity |].
  symmetry. destruct Hbad as [H | [H | H]]; rewrite H; cbn [Py.truthy];
    rewrite ?andb_false_r; reflexivity.
Qed.

Lemma signup_duplicate_run (request : Request) (w : World) (u : User.t) :
  method request = POST ->
  posted_name request <> "" -> posted_email request <> "" ->
  posted_password request <> "" ->
  registered (posted_email request) w = Some u ->
  signup request w
  = (Returns (Page "signup.html" NoContext 200),
     set_flashes
       (flashes w ++ [("error", "Email already registered. Please login instead.")])
       (set_trace (trace w ++ [Select "user"]) w)).
Proof.
  intros Hm Hn He Hp Hreg. unfold signup. rewrite Hm.
  fold (posted_name request) (posted_email request) (posted_password request).
  apply truthy_true in Hn, He, Hp. rewrite Hn, He, Hp. cbn [andb negb].
  unfold bind, user_by_email. fold (registered (posted_email request) w).
  rewrite Hreg. reflexivity.
Qed.

Lemma signup_success_run (request : Request) (w : World) :
  method request = POST ->
  posted_name request <> "" -> posted_email request <> "" ->
  posted_password request <> "" ->
  registered (posted_email request) w = None ->
  writable w = true -> pending w = [] ->
  exists w1,
    signup request w = (Returns (Redirect "/login"), w1)
    /\ users w1 =
         users w
         ++ [User.mk (fresh_id (User.id <$> users w)) (posted_name request)
               (posted_email request)
               (generate_password_hash (entropy w) (posted_password request))
               (clock w)]
    /\ chat_history w1 = chat_history w /\ feedback w1 = feedback w
    /\ pending w1 = [] /\ session w1 = session w
    /\ flashes w1 =
         flashes w ++ [("success", "Account created successfully! Please log in.")].
Proof.
  intros Hm Hn He Hp Hreg Hw Hpend. unfold signup. rewrite Hm.
  fold (posted_name request) (posted_email request) (posted_password request).
  apply truthy_true in Hn, He, Hp. rewrite Hn, He, Hp. cbn [andb negb].
  unfold bind, user_by_email. fold (registered (posted_email request) w).
  rewrite Hreg. unfold try_except, bind, db_add, db_commit, modify, flash, redirect, ret.
  world_simpl. rewrite Hw, Hpend. world_simpl.
  eexists. split; [reflexivity |]. world_simpl. repeat split.
Qed.

(** A signup that answers with the redirect to the login page has created
    the account. *)
Lemma signup_success_inv (request : Request) (w w1 : World) :
  pending w = [] ->
  signup request w = (Returns (Redirect "/login"), w1) ->
  method request = POST
  /\ posted_name request <> "" /\ posted_email request <> ""
  /\ posted_password request <> ""
  /\ registered (posted_email request) w = None
  /\ writable w = true
  /\ users w1 =
       users w
       ++ [User.mk (fresh_id (User.id <$> users w)) (posted_name request)
             (posted_email request)
             (generate_password_hash (entropy w) (posted_password request))
             (clock w)].
Proof.
  intros Hpend Hrun.
  destruct (method request) eqn:Hm.
  { unfold signup in Hrun. rewrite Hm in Hrun. discriminate Hrun. }
  destruct (Py.truthy (posted_name request)) eqn:Hn;
    [| apply truthy_false in Hn;
       rewrite signup_invalid_run in Hrun by auto; discriminate Hrun].
  destruct (Py.truthy (posted_email request)) eqn:He;
    [| apply truthy_false in He;
       rewrite signup_invalid_run in Hrun by auto; discriminate Hrun].
  destruct (Py.truthy (posted_password request)) eqn:Hp;
    [| apply truthy_false in Hp;
       rewrite signup_invalid_run in Hrun by auto; discriminate Hrun].
  apply truthy_true in Hn, He, Hp.
  destruct (registered (posted_email request) w) as [u|] eqn:Hreg;
    [rewrite (signup_duplicate_run request w u) in Hrun by assumption;
     discriminate Hrun |].
  destruct (writable w) eqn:Hw.
  - destruct (signup_success_run request w) as (w1' & Hrun' & Husers & _); auto.
    rewrite Hrun' in Hrun. injection Hrun as <-. auto 10.
  - exfalso. revert Hrun. unfold signup. rewrite Hm.
    fold (posted_name request) (posted_email request) (posted_password request).
    apply truthy_true in Hn, He, Hp. rewrite Hn, He, Hp. cbn [andb negb].
    unfold bind, user_by_email. fold (registered (posted_email request) w).
    rewrite Hreg.
    unfold try_except, bind, db_add, db_commit, db_rollback, logging_error, modify,
      flash, render_template, ret.
    world_simpl. rewrite Hw. discriminate.
Qed.

(** C6. Once a signup has created an account, every later signup with the
    same email (as stripped by the view) and non-empty name and password,
    whatever they are, re-renders the form with the flash "Email already
    registered. Please login instead."; it asks the store for one lookup
    and nothing else, so the user table is the one it found.  A signup
    with an empty or missing name, email or password flashes "Please fill
    in all fields." and changes nothing else of the world: the store is
    not consulted. *)
Theorem second_signup_is_refused :
  (forall (first second : Request) (w w1 w2 : World) (more : list User.t),
      pending w = [] ->
      signup first w = (Returns (Redirect "/login"), w1) ->
      users w2 = users w1 ++ more ->
      method second = POST ->
      posted_email second = posted_email first ->
      posted_name second <> "" ->
      posted_password second <> "" ->
      signup second w2
      = (Returns (Page "signup.html" NoContext 200),
         set_flashes
           (flashes w2 ++ [("error", "Email already registered. Please login instead.")])
           (set_trace (trace w2 ++ [Select "user"]) w2))
      /\ users (snd (signup second w2)) = users w2)
  /\ (forall (request : Request) (w : World),
        method request = POST ->
        posted_name request = "" \/ posted_email request = ""
        \/ posted_password request = "" ->
        signup request w
        = (Returns (Page "signup.html" NoContext 200),
           set_flashes (flashes w ++ [("error", "Please fill in all fields.")]) w)
        /\ trace (snd (signup request w)) = trace w
        /\ users (snd (signup request w)) = users w)
  /\ (forall (request : Request),
        form request !! "full_name" = None \/ form request !! "email" = None
        \/ form request !! "password" = None ->
        posted_name request = "" \/ posted_email request = ""
        \/ posted_password request = "").
Proof.
  split; [| split].
  - intros first second w w1 w2 more Hpend Hfirst Husers Hm Hsame Hname Hpw.
    destruct (signup_success_inv first w w1 Hpend Hfirst)
      as (_ & _ & Hmail & _ & Hfresh & _ & Hnew).
    assert (Hreg : exists u, registered (posted_email second) w2 = Some u).
    { unfold registered in *. rewrite Husers, Hnew, Hsame, <- app_assoc.
      rewrite find_app_fresh by exact Hfresh.
      cbn [app List.find User.email]. rewrite String.eqb_refl. eauto. }
    destruct Hreg as [u Hreg].
    rewrite (signup_duplicate_run second w2 u) by congruence.
    split; reflexivity.
  - intros request w Hm Hbad. rewrite signup_invalid_run by assumption.
    repeat split.
  - intros request Hmissing. unfold posted_name, posted_email, posted_password, form_get.
    destruct Hmissing as [H | [H | H]]; rewrite H; auto.
Qed.

Lemma login_empty_run (request : Request) (w : World) :
  method request = POST ->
  posted_email request = "" \/ posted_password request = "" ->
  login request w
  = (Returns (Page "login.html" NoContext 200),
     set_flashes (flashes w ++ [("error", "Please fill in all fields.")]) w).
Proof.
  intros Hm Hbad. unfold login. rewrite Hm.
  fold (posted_email request) (posted_password request).
  replace (negb (Py.truthy (posted_email request))
           || negb (Py.truthy (posted_password request))) with true; [reflexivity |].
  symmetry. destruct Hbad as [H | H]; rewrite H; cbn [Py.truthy negb];
    rewrite ?orb_true_r; reflexivity.
Qed.

Lemma login_checked_run (request : Request) (w : World) (u : User.t) :
  method request = POST ->
  posted_email request <> "" -> posted_password request <> "" ->
  registered (posted_email request) w = Some u ->
  login request w
  = if check_password_hash (User.password_hash u) (posted_password request)
    then (Returns (Redirect "/home"),
          set_flashes (flashes w ++ [("success", "Login successful!")])
            (set_session
               (<["user_name" := SStr (User.full_name u)]>
                  (<["user_id" := SInt (User.id u)]> (session w)))
               (set_trace (trace w ++ [Select "user"]) w)))
    else (Returns (Page "login.html" NoContext 200),
          set_flashes (flashes w ++ [("error", "Invalid email or password.")])
            (set_trace (trace w ++ [Select "user"]) w)).
Proof.
  intros Hm He Hp Hreg. unfold login. rewrite Hm.
  fold (posted_email request) (posted_password request).
  apply truthy_true in He, Hp. rewrite He, Hp. cbn [negb orb].
  unfold bind, user_by_email. fold (registered (posted_email request) w).
  rewrite Hreg.
  destruct (check_password_hash (User.password_hash u) (posted_password request));
    reflexivity.
Qed.


End Accounts.


Lemma second_signup_is_refused_witness :
  (@signup stub_externals second_signup_request world_with_bob
   = (Returns (Page "signup.html" NoContext 200),
      set_flashes
        (flashes world_with_bob
         ++ [("error", "Email already registered. Please login instead.")])
        (set_trace (trace world_with_bob ++ [Select "user"]) world_with_bob))
   /\ users (snd (@signup stub_externals second_signup_request world_with_bob))
      = users world_with_bob)
  /\ (@signup stub_externals incomplete_signup_request sample_world
      = (Returns (Page "signup.html" NoContext 200),
         set_flashes (flashes sample_world ++ [("error", "Please fill in all fields.")])
           sample_world)
      /\ trace (snd (@signup stub_externals incomplete_signup_request sample_world))
         = trace sample_world
      /\ users (snd (@signup stub_externals incomplete_signup_request sample_world))
         = users sample_world).
Proof.
  split.
  - apply (proj1 (@second_signup_is_refused stub_externals)
             signup_request second_signup_request sample_world world_with_bob
             world_with_bob []).
    + reflexivity.
    + vm_compute. reflexivity.
    + rewrite app_nil_r. reflexivity.
    + reflexivity.
    + vm_compute. reflexivity.
    + vm_compute. discriminate.
    + vm_compute. discriminate.
  - apply (proj1 (proj2 (@second_signup_is_refused stub_externals))
             incomplete_signup_request sample_world).
    + reflexivity.
    + right. right. vm_compute. reflexivity.
Defined.


(** With a hash that pads its key, Bob's password followed by a NUL byte
    differs from the registered one and logs in all the same: the second
    outcome of [register_then_authenticate] for a non-empty password is not
    an empty case. *)
Example nul_padded_password_logs_in :
  let padded := "hunter2" +:+ String "000" "" in
  let w1 := snd (@signup padding_externals signup_request sample_world) in
  fst (@signup padding_externals signup_request sample_world) = Returns (Redirect "/login")
  /\ String.eqb padded (posted_password signup_request) = false
  /\ fst (@login padding_externals (login_request padded) w1)
     = Returns (Redirect "/home")
  /\ session (snd (@login padding_externals (login_request padded) w1)) !! "user_id"
     = Some (SInt 2).
Proof. vm_compute. repeat split. Qed.


(** * Further properties of the views *)

(** ** The dashboard page *)

#[global] Instance newer_first_total : Total newer_first.
Proof. intros a b. unfold newer_first. lia. Qed.

#[global] Instance newer_first_transitive : Transitive newer_first.
Proof. intros a b c. unfold newer_first. lia. Qed.

Lemma rows_of_owned (uid : Z) (w : World) (f : Feedback.t) :
  In f (rows_of uid w) <-> In f (feedback w) /\ Feedback.user_id f = uid.
Proof. unfold rows_of. rewrite filter_In, Z.eqb_eq. reflexivity. Qed.

Lemma recent_rows_spec (uid : Z) (w : World) :
  length (recent_rows uid w) = Nat.min 10 (length (rows_of uid w))
  /\ StronglySorted newer_first (recent_rows uid w)
  /\ (forall f, In f (recent_rows uid w) -> In f (rows_of uid w))
  /\ (forall f g, In f (rows_of uid w) -> ~ In f (recent_rows uid w) ->
        In g (recent_rows uid w) ->
        (Feedback.timestamp f <= Feedback.timestamp g)%Z).
Proof.
  unfold recent_rows.
  set (rows := rows_of uid w). set (sorted := merge_sort newer_first rows).
  assert (Hperm : sorted ≡ₚ rows) by apply merge_sort_Permutation.
  assert (Hsorted : StronglySorted newer_first (take 10 sorted ++ drop 10 sorted)).
  { rewrite take_drop. apply StronglySorted_merge_sort; apply _. }
  split; [| split; [| split]].
  - rewrite length_take, (Permutation_length Hperm). reflexivity.
  - eapply StronglySorted_app_1_l, Hsorted.
  - intros f Hf. apply list_elem_of_In. rewrite <- Hperm.
    apply list_elem_of_In in Hf. eapply elem_of_take_drop_l || idtac.
    rewrite <- (take_drop 10 sorted). apply elem_of_app. left. exact Hf.
  - intros f g Hf Hnot Hg.
    apply list_elem_of_In in Hf, Hg. rewrite <- Hperm, <- (take_drop 10 sorted) in Hf.
    apply elem_of_app in Hf as [Hf | Hf].
    + exfalso. apply Hnot, list_elem_of_In, Hf.
    + exact (StronglySorted_app_1_elem_of _ _ _ _ _ Hsorted Hg Hf).
Qed.

(** X1. For a logged-in user [dashboard] renders [dashboard.html] with the
    statistics of [get_feedback_stats] and the user's ten newest feedback
    rows, newest first: never more than ten, all of them rows of that user,
    each at least as new as the ones after it and as every row left out.
    (Among rows with equal timestamps the query leaves the order to the
    database; [merge_sort] makes a choice of its own, and nothing stated
    here depends on it.)  The page reads the store twice and changes
    nothing. *)
Theorem dashboard_shows_latest_ten (w : World) (uid : Z) :
  session w !! "user_id" = Some (SInt uid) ->
  exists stats w',
    dashboard w
    = (Returns (Page "dashboard.html" (DashboardContext stats (recent_rows uid w)) 200), w')
    /\ fst (get_feedback_stats w) = Returns stats
    /\ length (recent_rows uid w) <= 10
    /\ length (recent_rows uid w) = Nat.min 10 (length (rows_of uid w))
    /\ StronglySorted newer_first (recent_rows uid w)
    /\ (forall f, In f (recent_rows uid w) ->
          In f (feedback w) /\ Feedback.user_id f = uid)
    /\ (forall f g, In f (rows_of uid w) -> ~ In f (recent_rows uid w) ->
          In g (recent_rows uid w) ->
          (Feedback.timestamp f <= Feedback.timestamp g)%Z)
    /\ users w' = users w /\ chat_history w' = chat_history w
    /\ feedback w' = feedback w /\ pending w' = pending w
    /\ session w' = session w /\ flashes w' = flashes w.
Proof.
  intros Hsession.
  destruct (recent_rows_spec uid w) as (Hlen & Hsorted & Hsub & Htop).
  unfold dashboard, bind, gets. rewrite (logged_in_true w _ Hsession). cbn [negb].
  rewrite (get_feedback_stats_run w uid Hsession).
  unfold session_user_id. world_simpl. rewrite Hsession.
  unfold recent_feedback_of. world_simpl.
  fold (rows_of uid w). fold (recent_rows uid w).
  eexists _, _. split; [reflexivity |]. world_simpl.
  split; [reflexivity |]. split; [lia |]. split; [exact Hlen |].
  split; [exact Hsorted |].
  split; [intros f Hf; apply rows_of_owned, Hsub, Hf |].
  split; [exact Htop |]. repeat split.
Qed.

Lemma dashboard_shows_latest_ten_witness :
  exists stats w',
    dashboard crowded_world
    = (Returns (Page "dashboard.html" (DashboardContext stats (recent_rows 1 crowded_world))
                  200), w')
    /\ length (recent_rows 1 crowded_world) = 10
    /\ map Feedback.timestamp (recent_rows 1 crowded_world)
       = [21; 20; 19; 16; 15; 14; 12; 11; 10; 7]%Z.
Proof.
  destruct (dashboard_shows_latest_ten crowded_world 1 eq_refl)
    as (stats & w' & Hrun & _ & _ & Hlen & _).
  exists stats, w'. split; [exact Hrun |]. split; [rewrite Hlen |]; vm_compute; reflexivity.
Defined.

(** ** The chat API *)

Lemma request_message_form (request : Request) (w : World) (m : string) :
  form request !! "message" = Some m -> m <> "" ->
  request_message request w = (Returns (JString m), w).
Proof.
  intros Hform Hm. unfold request_message. rewrite Hform.
  apply truthy_true in Hm. rewrite Hm. reflexivity.
Qed.

(** Without a usable form field, the message is whatever
    [request.json.get('message')] gives. *)
Lemma request_message_body (request : Request) (w : World) :
  no_form_message request ->
  request_message request w = (body <- request_json request ;; get_message body) w.
Proof. intros [Hform | Hform]; unfold request_message; rewrite Hform; reflexivity. Qed.

Lemma request_message_json
    (request : Request) (w : World) (members : list (string * JsonValue)) :
  no_form_message request -> json request = Parsed (JDict members) ->
  request_message request w = (Returns (dict_get "message" members), w).
Proof.
  intros Hform Hjson. rewrite (request_message_body request w Hform).
  unfold request_json, bind. rewrite Hjson. reflexivity.
Qed.

Lemma request_message_not_json (request : Request) (w : World) :
  no_form_message request -> json request = NotJson ->
  request_message request w
  = (Raises (mkExn "UnsupportedMediaType" "request body is not JSON"), w).
Proof.
  intros Hform Hjson. rewrite (request_message_body request w Hform).
  unfold request_json, bind. rewrite Hjson. reflexivity.
Qed.

Lemma request_message_malformed (request : Request) (w : World) :
  no_form_message request -> json request = Malformed ->
  request_message request w
  = (Raises (mkExn "BadRequest" "failed to decode JSON object"), w).
Proof.
  intros Hform Hjson. rewrite (request_message_body request w Hform).
  unfold request_json, bind. rewrite Hjson. reflexivity.
Qed.

Lemma request_message_not_object (request : Request) (w : World) (body : JsonValue) :
  no_form_message request -> json_body_not_object request body ->
  request_message request w = (Raises (no_attribute body "get"), w).
Proof.
  intros Hform [Hjson Hbody]. rewrite (request_message_body request w Hform).
  unfold request_json, bind. rewrite Hjson.
  destruct body; try reflexivity. destruct Hbody. reflexivity.
Qed.

Lemma request_message_chat (request : Request) (w : World) (m : string) :
  chat_message request m -> request_message request w = (Returns (JString m), w).
Proof.
  intros [Hm [Hform | (Hno & members & Hjson & Hbody)]].
  - apply request_message_form; assumption.
  - rewrite (request_message_json request w members Hno Hjson), Hbody. reflexivity.
Qed.

(** Reading the message changes nothing. *)
Lemma request_message_pure (request : Request) (w : World) :
  snd (request_message request w) = w.
Proof.
  unfold request_message, request_json, get_message, bind, ret, raise.
  destruct (form request !! "message") as [s |]; [destruct (Py.truthy s) |];
    try reflexivity;
    (destruct (json request) as [| | body]; [reflexivity | reflexivity |];
     destruct body; reflexivity).
Qed.

(** [chat_api] for a logged-in user, by what the message turns out to be. *)
Lemma chat_api_raised (request : Request) (w : World) (e : Exn) :
  logged_in w = true -> request_message request w = (Raises e, w) ->
  chat_api request w = (Raises e, w).
Proof.
  intros Hin Hmsg. unfold chat_api, bind at 1, gets. rewrite Hin. cbn [negb].
  unfold bind at 1. rewrite Hmsg. reflexivity.
Qed.

Lemma chat_api_falsy (request : Request) (w : World) (v : JsonValue) :
  logged_in w = true -> request_message request w = (Returns v, w) ->
  json_truthy v = false ->
  chat_api request w = (Returns (Json [("error", "Message is required")] 400), w).
Proof.
  intros Hin Hmsg Hv. unfold chat_api, bind at 1, gets. rewrite Hin. cbn [negb].
  unfold bind at 1. rewrite Hmsg, Hv. reflexivity.
Qed.

Lemma chat_api_not_text (request : Request) (w : World) (v : JsonValue) :
  logged_in w = true -> request_message request w = (Returns v, w) ->
  json_truthy v = true -> type_name v <> "str" ->
  chat_api request w
  = (Returns (Json [("error",
       "AI service is temporarily unavailable. Please try again later.")] 503),
     set_log (log w ++ ["Chat API error: '" +:+ type_name v
                        +:+ "' object has no attribute 'strip'"]) w).
Proof.
  intros Hin Hmsg Hv Htype. unfold chat_api, bind at 1, gets. rewrite Hin. cbn [negb].
  unfold bind at 1. rewrite Hmsg, Hv. cbn [negb].
  destruct v; try reflexivity. destruct Htype. reflexivity.
Qed.

Lemma chat_api_text (request : Request) (w : World) (uid : Z) (m : string) :
  session w !! "user_id" = Some (SInt uid) ->
  request_message request w = (Returns (JString m), w) -> m <> "" ->
  chat_api request w
  = if writable w
    then (Returns (Json [("reply", get_ai_response (Py.strip m));
                         ("sentiment", chat_sentiment m);
                         ("question", m)] 200),
          set_pending []
            (foldl (fun acc i => write i acc)
               (set_trace ((trace w ++ [Add]) ++ [Commit])
                  (set_pending
                     (pending w ++ [NewChatHistory uid m (get_ai_response (Py.strip m))])
                     (set_trace (trace w ++ [Add]) w)))
               (pending w ++ [NewChatHistory uid m (get_ai_response (Py.strip m))])))
    else (Returns (Json [("error",
            "AI service is temporarily unavailable. Please try again later.")] 503),
          set_log (log w ++ ["Chat API error: database is locked"])
            (set_pending []
               (set_trace ((trace w ++ [Add]) ++ [Commit])
                  (set_pending
                     (pending w ++ [NewChatHistory uid m (get_ai_response (Py.strip m))])
                     (set_trace (trace w ++ [Add]) w))))).
Proof.
  intros Hsession Hmsg Hm. apply truthy_true in Hm.
  unfold chat_api, bind at 1, gets. rewrite (logged_in_true w _ Hsession). cbn [negb].
  unfold bind at 1. rewrite Hmsg. cbn [json_truthy]. rewrite Hm. cbn [negb].
  unfold bind, try_except, session_user_id. rewrite Hsession.
  unfold db_add, db_commit, modify, logging_error, jsonify, ret. world_simpl.
  destruct (writable w); reflexivity.
Qed.

(** [chat_api] after the session check and the message lookup. *)
Lemma chat_api_with_message (request : Request) (w : World) (uid : Z) (m : string) :
  session w !! "user_id" = Some (SInt uid) ->
  chat_message request m ->
  chat_api request w
  = if writable w
    then (Returns (Json [("reply", get_ai_response (Py.strip m));
                         ("sentiment", chat_sentiment m);
                         ("question", m)] 200),
          set_pending []
            (foldl (fun acc i => write i acc)
               (set_trace ((trace w ++ [Add]) ++ [Commit])
                  (set_pending
                     (pending w ++ [NewChatHistory uid m (get_ai_response (Py.strip m))])
                     (set_trace (trace w ++ [Add]) w)))
               (pending w ++ [NewChatHistory uid m (get_ai_response (Py.strip m))])))
    else (Returns (Json [("error",
            "AI service is temporarily unavailable. Please try again later.")] 503),
          set_log (log w ++ ["Chat API error: database is locked"])
            (set_pending []
               (set_trace ((trace w ++ [Add]) ++ [Commit])
                  (set_pending
                     (pending w ++ [NewChatHistory uid m (get_ai_response (Py.strip m))])
                     (set_trace (trace w ++ [Add]) w))))).
Proof.
  intros Hsession Hchat.
  apply chat_api_text; [exact Hsession | | exact (proj1 Hchat)].
  apply request_message_chat, Hchat.
Qed.

(** X2. For a logged-in user and a non-empty message, on a database that
    accepts the commit, [chat_api] answers 200 with the reply of
    [get_ai_response] on the stripped message, the chat-turn sentiment of
    the message and the message itself, and appends exactly one row to the
    chat history: owned by the user, with the message as typed (not
    stripped) and the reply.  Users, feedback and flashed messages are left
    alone. *)
Theorem chat_api_records_the_exchange
    (request : Request) (w : World) (uid : Z) (m : string) :
  session w !! "user_id" = Some (SInt uid) ->
  pending w = [] ->
  writable w = true ->
  chat_message request m ->
  exists w',
    chat_api request w
    = (Returns (Json [("reply", get_ai_response (Py.strip m));
                      ("sentiment", chat_sentiment m);
                      ("question", m)] 200), w')
    /\ chat_history w' =
         chat_history w
         ++ [ChatHistory.mk (fresh_id (ChatHistory.id <$> chat_history w)) uid m
               (get_ai_response (Py.strip m)) (clock w)]
    /\ users w' = users w /\ feedback w' = feedback w
    /\ pending w' = [] /\ session w' = session w /\ flashes w' = flashes w.
Proof.
  intros Hsession Hpending Hwritable Hchat.
  rewrite (chat_api_with_message request w uid m Hsession Hchat), Hwritable, Hpending.
  eexists. split; [reflexivity |]. world_simpl. repeat split.
Qed.

(** X3. When the database refuses the commit, [chat_api] answers 503 with the
    JSON error, writes one line to the log, and no table changes. *)
Theorem chat_api_commit_refused
    (request : Request) (w : World) (uid : Z) (m : string) :
  session w !! "user_id" = Some (SInt uid) ->
  writable w = false ->
  chat_message request m ->
  exists w',
    chat_api request w
    = (Returns (Json [("error",
         "AI service is temporarily unavailable. Please try again later.")] 503), w')
    /\ users w' = users w /\ chat_history w' = chat_history w
    /\ feedback w' = feedback w
    /\ session w' = session w /\ flashes w' = flashes w
    /\ length (log w') = S (length (log w)).
Proof.
  intros Hsession Hwritable Hchat.
  rewrite (chat_api_with_message request w uid m Hsession Hchat), Hwritable.
  eexists. split; [reflexivity |]. world_simpl.
  repeat split. rewrite length_app. cbn [length]. lia.
Qed.

(** X4. A logged-in user's request whose form has no non-empty [message]:
    what [chat_api] does is decided by the body.  A JSON object without a
    [message], or with a falsy one, is answered 400 "Message is required"
    and nothing else happens.  A content type that is not JSON, and a JSON
    text that does not parse, make [request.json] raise its HTTP exception
    (415 and 400) in front of the [try].  A JSON body that is not an object
    ([null], a list, a number, ...) has no [get]: the [AttributeError] is
    raised in front of the [try] as well and leaves the view.  A [message]
    that is truthy but not a string has no [strip]: that [AttributeError]
    is raised inside the [try], so the answer is 503 with one line in the
    log.  In none of these cases is the store touched. *)
Theorem chat_api_without_message (request : Request) (w : World) (uid : Z) :
  session w !! "user_id" = Some (SInt uid) ->
  no_form_message request ->
  (no_json_message request ->
     chat_api request w = (Returns (Json [("error", "Message is required")] 400), w))
  /\ (json request = NotJson ->
        exists e, chat_api request w = (Raises e, w)
                  /\ exn_class e = "UnsupportedMediaType")
  /\ (json request = Malformed ->
        exists e, chat_api request w = (Raises e, w) /\ exn_class e = "BadRequest")
  /\ (forall body, json_body_not_object request body ->
        chat_api request w
        = (Raises (mkExn "AttributeError"
                     ("'" +:+ type_name body +:+ "' object has no attribute 'get'")), w))
  /\ (forall v, json_message_not_text request v ->
        chat_api request w
        = (Returns (Json [("error",
             "AI service is temporarily unavailable. Please try again later.")] 503),
           set_log (log w ++ ["Chat API error: '" +:+ type_name v
                              +:+ "' object has no attribute 'strip'"]) w)).
Proof.
  intros Hsession Hno. pose proof (logged_in_true w _ Hsession) as Hin.
  split; [| split; [| split; [| split]]].
  - intros (members & Hjson & Hfalsy).
    exact (chat_api_falsy request w _ Hin
             (request_message_json request w members Hno Hjson) Hfalsy).
  - intros Hjson. eexists.
    split; [exact (chat_api_raised request w _ Hin
                     (request_message_not_json request w Hno Hjson)) | reflexivity].
  - intros Hjson. eexists.
    split; [exact (chat_api_raised request w _ Hin
                     (request_message_malformed request w Hno Hjson)) | reflexivity].
  - intros body Hbody.
    exact (chat_api_raised request w _ Hin
             (request_message_not_object request w body Hno Hbody)).
  - intros v ((members & Hjson & Hget) & Htruthy & Htype).
    apply chat_api_not_text; [exact Hin | | exact Htruthy | exact Htype].
    rewrite (request_message_json request w members Hno Hjson), Hget. reflexivity.
Qed.

(** X5. A message of white space only is not rejected: once stripped it is
    empty, the reply is the default template, and the exchange is recorded
    with the message as typed. *)
Theorem chat_api_blank_message
    (request : Request) (w : World) (uid : Z) (m : string) :
  session w !! "user_id" = Some (SInt uid) ->
  pending w = [] ->
  writable w = true ->
  chat_message request m ->
  Py.strip m = "" ->
  exists w',
    chat_api request w
    = (Returns (Json [("reply", TEMPLATE_DEFAULT);
                      ("sentiment", chat_sentiment m);
                      ("question", m)] 200), w')
    /\ length (chat_history w') = S (length (chat_history w)).
Proof.
  intros Hsession Hpending Hwritable Hchat Hblank.
  rewrite (chat_api_with_message request w uid m Hsession Hchat), Hwritable, Hpending,
    Hblank.
  eexists. split; [reflexivity |]. world_simpl.
  rewrite length_app. cbn [length]. lia.
Qed.

(** ** Login and logout *)

Section Sessions.
Context {ext : Externals}.

Lemma login_unknown_run (request : Request) (w : World) :
  method request = POST ->
  posted_email request <> "" -> posted_password request <> "" ->
  registered (posted_email request) w = None ->
  login request w
  = (Returns (Page "login.html" NoContext 200),
     set_flashes (flashes w ++ [("error", "Invalid email or password.")])
       (set_trace (trace w ++ [Select "user"]) w)).
Proof.
  intros Hm He Hp Hreg. unfold login. rewrite Hm.
  fold (posted_email request) (posted_password request).
  apply truthy_true in He, Hp. rewrite He, Hp. cbn [negb orb].
  unfold bind, user_by_email. fold (registered (posted_email request) w).
  rewrite Hreg. reflexivity.
Qed.

(** X6. A login with an email nobody registered and a login with a registered
    email and a password its hash does not verify get the same answer: the
    login form again, with the one message "Invalid email or password.",
    after one lookup in the user table.  The session is not touched. *)
Theorem login_failures_look_alike (request : Request) (w : World) :
  method request = POST ->
  posted_email request <> "" -> posted_password request <> "" ->
  match registered (posted_email request) w with
  | None => True
  | Some u =>
      check_password_hash (User.password_hash u) (posted_password request) = false
  end ->
  login request w
  = (Returns (Page "login.html" NoContext 200),
     set_flashes (flashes w ++ [("error", "Invalid email or password.")])
       (set_trace (trace w ++ [Select "user"]) w)).
Proof.
  intros Hm He Hp Hfail.
  destruct (registered (posted_email request) w) as [u|] eqn:Hreg.
  - rewrite (login_checked_run request w u Hm He Hp Hreg), Hfail. reflexivity.
  - apply login_unknown_run; assumption.
Qed.

(** X7. [login] with any request, in any world, writes nothing to the
    database: the three tables and the pending objects are as before, and
    the only thing it asks of the store is at most one lookup in the user
    table. *)
Theorem login_never_writes (request : Request) (w : World) :
  users (snd (login request w)) = users w
  /\ chat_history (snd (login request w)) = chat_history w
  /\ feedback (snd (login request w)) = feedback w
  /\ pending (snd (login request w)) = pending w
  /\ (trace (snd (login request w)) = trace w
      \/ trace (snd (login request w)) = trace w ++ [Select "user"]).
Proof.
  destruct (method request) eqn:Hm.
  { unfold login. rewrite Hm. cbn. auto 10. }
  destruct (Py.truthy (posted_email request)) eqn:He;
    [| apply truthy_false in He; rewrite login_empty_run by auto; cbn; auto 10].
  destruct (Py.truthy (posted_password request)) eqn:Hp;
    [| apply truthy_false in Hp; rewrite login_empty_run by auto; cbn; auto 10].
  apply truthy_true in He, Hp.
  destruct (registered (posted_email request) w) as [u|] eqn:Hreg.
  - rewrite (login_checked_run request w u Hm He Hp Hreg).
    destruct (check_password_hash _ _); cbn; auto 10.
  - rewrite login_unknown_run by assumption. cbn. auto 10.
Qed.

(** X8. A login whose email is registered and whose password the stored hash
    verifies redirects to /home and binds the session to the row found: its
    primary key under [user_id] and its full name under [user_name], every
    other key of the session as before.  From then on the guarded pages are
    served: [home] renders home.html and [chat] renders chat.html. *)
Theorem login_opens_session (request : Request) (w : World) (u : User.t) :
  method request = POST ->
  posted_email request <> "" -> posted_password request <> "" ->
  registered (posted_email request) w = Some u ->
  check_password_hash (User.password_hash u) (posted_password request) = true ->
  exists w',
    login request w = (Returns (Redirect "/home"), w')
    /\ session w' !! "user_id" = Some (SInt (User.id u))
    /\ session w' !! "user_name" = Some (SStr (User.full_name u))
    /\ (forall key, key <> "user_id" -> key <> "user_name" ->
          session w' !! key = session w !! key)
    /\ In u (users w')
    /\ flashes w' = flashes w ++ [("success", "Login successful!")]
    /\ home w' = (Returns (Page "home.html" NoContext 200), w')
    /\ chat w' = (Returns (Page "chat.html" NoContext 200), w').
Proof.
  intros Hm He Hp Hreg Hcheck.
  rewrite (login_checked_run request w u Hm He Hp Hreg), Hcheck.
  eexists. split; [reflexivity |]. world_simpl.
  assert (Hid : (<["user_name" := SStr (User.full_name u)]>
                   (<["user_id" := SInt (User.id u)]> (session w)) : gmap string SessVal)
                !! "user_id" = Some (SInt (User.id u))).
  { rewrite lookup_insert_ne by discriminate. apply lookup_insert_eq. }
  split; [exact Hid |].
  split; [apply lookup_insert_eq |].
  split; [intros key H1 H2; rewrite !lookup_insert_ne by congruence; reflexivity |].
  split; [apply (find_some _ _ Hreg) |].
  split; [reflexivity |].
  unfold home, chat, bind, gets.
  match goal with
  | |- context [logged_in ?w0] => rewrite (logged_in_true w0 (SInt (User.id u)) Hid)
  end.
  split; reflexivity.
Qed.

End Sessions.

(** X9. [logout] in any world empties the session, leaves the tables alone,
    flashes "You have been logged out." and redirects to the landing page;
    after it the guarded pages redirect to /login and the chat API answers
    401. *)
Theorem logout_closes_session (w : World) :
  exists w',
    logout w = (Returns (Redirect "/"), w')
    /\ session w' = ∅
    /\ flashes w' = [("info", "You have been logged out.")]
    /\ users w' = users w /\ chat_history w' = chat_history w
    /\ feedback w' = feedback w
    /\ home w' = (Returns (Redirect "/login"), w')
    /\ dashboard w' = (Returns (Redirect "/login"), w')
    /\ (forall request,
          chat_api request w'
          = (Returns (Json [("error", "Authentication required")] 401), w')).
Proof.
  eexists. split; [reflexivity |]. world_simpl.
  repeat split.
Qed.

(** ** The chat API and login on the sample requests *)

Lemma chat_api_records_the_exchange_witness :
  exists w',
    chat_api chat_request sample_world
    = (Returns (Json [("reply", TEMPLATE_LICENSES);
                      ("sentiment", "neutral");
                      ("question", "How do I renew my permit?")] 200), w')
    /\ chat_history w' =
         [ChatHistory.mk 1 1 "How do I renew my permit?" TEMPLATE_LICENSES 5].
Proof.
  destruct (chat_api_records_the_exchange chat_request sample_world 1
              "How do I renew my permit?")
    as (w' & Hrun & Hrows & _).
  - reflexivity.
  - reflexivity.
  - reflexivity.
  - split; [discriminate | left; reflexivity].
  - exists w'. split; [exact Hrun | exact Hrows].
Defined.

Lemma chat_api_commit_refused_witness :
  exists w',
    chat_api chat_request locked_world
    = (Returns (Json [("error",
         "AI service is temporarily unavailable. Please try again later.")] 503), w')
    /\ chat_history w' = [] /\ length (log w') = 1.
Proof.
  destruct (chat_api_commit_refused chat_request locked_world 1
              "How do I renew my permit?")
    as (w' & Hrun & _ & Hrows & _ & _ & _ & Hlog).
  - reflexivity.
  - reflexivity.
  - split; [discriminate | left; reflexivity].
  - exists w'. split; [exact Hrun |]. split; [exact Hrows | exact Hlog].
Defined.

Lemma chat_api_without_message_witness :
  chat_api (json_chat_request (JString "")) sample_world
  = (Returns (Json [("error", "Message is required")] 400), sample_world)
  /\ chat_api (mkRequest POST "/chat" ∅ (Parsed JNull)) sample_world
     = (Raises (mkExn "AttributeError" "'NoneType' object has no attribute 'get'"),
        sample_world)
  /\ chat_api (json_chat_request (JInt 5)) sample_world
     = (Returns (Json [("error",
          "AI service is temporarily unavailable. Please try again later.")] 503),
        set_log ["Chat API error: 'int' object has no attribute 'strip'"] sample_world).
Proof.
  assert (Hform : forall body, no_form_message (mkRequest POST "/chat" ∅ body))
    by (intros body; left; reflexivity).
  split; [| split].
  - destruct (chat_api_without_message (json_chat_request (JString "")) sample_world 1
                eq_refl (Hform _)) as (Hfalsy & _).
    apply Hfalsy. eexists. split; reflexivity.
  - destruct (chat_api_without_message (mkRequest POST "/chat" ∅ (Parsed JNull))
                sample_world 1 eq_refl (Hform _)) as (_ & _ & _ & Hbody & _).
    apply (Hbody JNull). split; [reflexivity | discriminate].
  - destruct (chat_api_without_message (json_chat_request (JInt 5)) sample_world 1
                eq_refl (Hform _)) as (_ & _ & _ & _ & Hvalue).
    apply (Hvalue (JInt 5)).
    split; [eexists; split; reflexivity |]. split; [reflexivity | discriminate].
Defined.

Lemma chat_api_blank_message_witness :
  exists w',
    chat_api (json_chat_request (JString "  ")) sample_world
    = (Returns (Json [("reply", TEMPLATE_DEFAULT);
                      ("sentiment", "neutral");
                      ("question", "  ")] 200), w')
    /\ length (chat_history w') = 1.
Proof.
  apply (chat_api_blank_message (json_chat_request (JString "  ")) sample_world 1 "  ").
  - reflexivity.
  - reflexivity.
  - reflexivity.
  - split; [discriminate | right]. split; [left; reflexivity |].
    eexists. split; reflexivity.
  - reflexivity.
Defined.

Lemma login_failures_look_alike_witness :
  fst (@login stub_externals (login_request "wrong") world_with_bob)
  = Returns (Page "login.html" NoContext 200)
  /\ @login stub_externals unknown_login_request world_with_bob
     = (Returns (Page "login.html" NoContext 200),
        set_flashes (flashes world_with_bob ++ [("error", "Invalid email or password.")])
          (set_trace (trace world_with_bob ++ [Select "user"]) world_with_bob)).
Proof.
  split.
  - rewrite (@login_failures_look_alike stub_externals (login_request "wrong")
               world_with_bob); [reflexivity | reflexivity | discriminate | discriminate |].
    vm_compute. reflexivity.
  - apply (@login_failures_look_alike stub_externals unknown_login_request world_with_bob);
      [reflexivity | discriminate | discriminate |].
    vm_compute. exact I.
Defined.

Lemma login_opens_session_witness :
  exists w',
    @login stub_externals (login_request "hunter2") world_with_bob
    = (Returns (Redirect "/home"), w')
    /\ session w' !! "user_id" = Some (SInt 2)
    /\ session w' !! "user_name" = Some (SStr "Bob")
    /\ home w' = (Returns (Page "home.html" NoContext 200), w').
Proof.
  destruct (@login_opens_session stub_externals (login_request "hunter2") world_with_bob
              (User.mk 2 "Bob" "bob@example.org" "plain$hunter2" 5))
    as (w' & Hrun & Hid & Hname & _ & _ & _ & Hhome & _).
  - reflexivity.
  - discriminate.
  - discriminate.
  - vm_compute. reflexivity.
  - vm_compute. reflexivity.
  - exists w'. auto.
Defined.

(** ** Signup when the commit fails *)

Section Signup_failure.
Context {ext : Externals}.

(** X10. A signup with all three fields and an unused email, on a database that
    refuses the commit, is rolled back: no user row is added and nothing
    stays pending, one line goes to the log, the message "Error creating
    account. Please try again." is flashed and the signup form is rendered
    again.  The session is as before. *)
Theorem signup_commit_refused (request : Request) (w : World) :
  method request = POST ->
  posted_name request <> "" -> posted_email request <> "" ->
  posted_password request <> "" ->
  registered (posted_email request) w = None ->
  writable w = false ->
  exists w',
    signup request w = (Returns (Page "signup.html" NoContext 200), w')
    /\ users w' = users w /\ chat_history w' = chat_history w
    /\ feedback w' = feedback w
    /\ pending w' = []
    /\ trace w' = trace w ++ [Select "user"; Add; Commit; Rollback]
    /\ log w' = log w ++ ["Error creating user: database is locked"]
    /\ flashes w' = flashes w ++ [("error", "Error creating account. Please try again.")]
    /\ session w' = session w.
Proof.
  intros Hm Hn He Hp Hreg Hw. unfold signup. rewrite Hm.
  fold (posted_name request) (posted_email request) (posted_password request).
  apply truthy_true in Hn, He, Hp. rewrite Hn, He, Hp. cbn [andb negb].
  unfold bind, user_by_email. fold (registered (posted_email request) w).
  rewrite Hreg.
  unfold try_except, bind, db_add, db_commit, db_rollback, logging_error, modify,
    flash, render_template, ret.
  world_simpl. rewrite Hw.
  eexists. split; [reflexivity |]. world_simpl.
  rewrite <- !app_assoc. repeat split.
Qed.

End Signup_failure.

Lemma signup_commit_refused_witness :
  exists w',
    @signup stub_externals signup_request locked_world
    = (Returns (Page "signup.html" NoContext 200), w')
    /\ users w' = users locked_world
    /\ pending w' = []
    /\ flashes w' = [("error", "Error creating account. Please try again.")].
Proof.
  destruct (@signup_commit_refused stub_externals signup_request locked_world)
    as (w' & Hrun & Husers & _ & _ & Hpending & _ & _ & Hflash & _).
  - reflexivity.
  - discriminate.
  - discriminate.
  - discriminate.
  - vm_compute. reflexivity.
  - reflexivity.
  - exists w'. auto.
Defined.

(** ** What a request may change, and the invariants of the store *)

Section Store_invariants.
Context {ext : Externals}.

Lemma Effect_refl (w : World) : Effect w w.
Proof. unfold Effect. auto 10. Qed.

Lemma get_ai_response_in_templates (question : string) :
  In (get_ai_response question) TEMPLATES.
Proof.
  unfold get_ai_response, TEMPLATES.
  repeat match goal with
         | |- context [Py.any_in ?ws ?t] => destruct (Py.any_in ws t)
         end; cbn [In]; auto 10.
Qed.

Lemma registered_none (email : string) (w : World) :
  registered email w = None -> ~ In email (map User.email (users w)).
Proof.
  unfold registered. intros Hnone Hin. apply in_map_iff in Hin as (u & <- & Hu).
  apply (find_none _ _ Hnone) in Hu. rewrite String.eqb_refl in Hu. discriminate.
Qed.

Lemma user_exists_mono (uid : Z) (w w' : World) (more : list User.t) :
  users w' = users w ++ more -> user_exists uid w -> user_exists uid w'.
Proof.
  intros Husers (u & Hin & Hid). exists u. rewrite Husers, in_app_iff. auto.
Qed.

Lemma Effect_keeps_consistent (w w' : World) :
  Effect w w' -> Consistent w -> Consistent w'.
Proof.
  intros (Husers & Hchat & Hfb & Hsess & _ & _) (Hnodup & Hnames & Hrows & Hturns & Hlogin).
  assert (Hext : exists more, users w' = users w ++ more).
  { destruct Husers as [-> | (n & e & h & _ & _ & _ & _ & ->)]; [exists [] | eauto].
    symmetry. apply app_nil_r. }
  destruct Hext as [more Hext].
  assert (Hmono : forall uid, user_exists uid w -> user_exists uid w')
    by (intros uid; apply (user_exists_mono uid w w' more Hext)).
  unfold Consistent. split; [| split; [| split; [| split]]].
  - destruct Husers as [-> | (n & e & h & _ & _ & _ & Hfresh & ->)]; [exact Hnodup |].
    rewrite map_app. cbn [map User.email]. apply NoDup_app. split; [exact Hnodup |].
    split; [| apply NoDup_singleton].
    intros x Hx Hx'. apply list_elem_of_In in Hx. apply list_elem_of_In in Hx'.
    destruct Hx' as [<- | []]. exact (registered_none _ _ Hfresh Hx).
  - destruct Husers as [-> | (n & e & h & Hn & He & Hh & _ & ->)]; [exact Hnames |].
    intros u Hu. apply in_app_iff in Hu as [Hu | [<- | []]]; [auto |].
    cbn. auto.
  - destruct Hfb as [-> | (uid & q & t & l & Hs & Ht & Hl & ->)].
    + intros f Hf. destruct (Hrows f Hf) as (? & ? & ?). auto.
    + intros f Hf. apply in_app_iff in Hf as [Hf | [<- | []]].
      * destruct (Hrows f Hf) as (? & ? & ?). auto.
      * cbn. repeat split; [exact Hl | exact Ht |].
        destruct (Hlogin _ Hs) as (uid' & Heq & Hex). injection Heq as <-. auto.
  - destruct Hchat as [-> | (uid & q & r & Hs & Hq & Hr & ->)].
    + intros c Hc. destruct (Hturns c Hc) as (? & ? & ?). auto.
    + intros c Hc. apply in_app_iff in Hc as [Hc | [<- | []]].
      * destruct (Hturns c Hc) as (? & ? & ?). auto.
      * cbn. repeat split; [exact Hq | exact Hr |].
        destruct (Hlogin _ Hs) as (uid' & Heq & Hex). injection Heq as <-. auto.
  - destruct Hsess as [-> | [-> | (u & Hu & ->)]].
    + intros v Hv. destruct (Hlogin v Hv) as (uid & -> & Hex). eauto.
    + intros v Hv. rewrite lookup_empty in Hv. discriminate.
    + intros v Hv. rewrite lookup_insert_ne, lookup_insert_eq in Hv by discriminate.
      injection Hv as <-. eexists. split; [reflexivity |]. apply Hmono. exists u. auto.
Qed.

End Store_invariants.

(** Case analysis on whatever a view branches on next. *)
Ltac branch :=
  match goal with
  | |- context [match ?x with _ => _ end] =>
      lazymatch x with
      | context [match _ with _ => _ end] => fail
      | _ => destruct x eqn:?
      end
  end.

Ltac run_view :=
  unfold flash, logging_error, redirect, render_template, jsonify, db_add, db_commit,
    db_rollback, user_by_email, session_user_id, request_message, request_json;
  unfold bind, gets, modify, ret, raise, try_except;
  cbv beta; world_simpl.

(** Closing one leaf of the case analysis: each table and the session are
    either as before or changed in the one way [Effect] allows. *)
Ltac effect_leaf :=
  unfold Effect; world_simpl;
  repeat match goal with |- _ /\ _ => split end;
  first
    [ reflexivity
    | left; reflexivity
    | right; left; reflexivity
    | right; repeat eexists; eauto
    | right; right; repeat eexists; eauto ].

Section Effects.
Context {ext : Externals}.

Lemma submit_feedback_effect (request : Request) (w : World) :
  pending w = [] -> Effect w (snd (submit_feedback request w)).
Proof.
  intros Hpending. unfold submit_feedback. run_view.
  destruct (logged_in w); cbn [negb snd]; [| apply Effect_refl].
  destruct (Py.truthy (Py.strip (form_get request "feedback" ""))) eqn:Htext;
    [| apply Effect_refl].
  apply truthy_true in Htext.
  rewrite analyze_sentiment_run. world_simpl.
  pose proof (sentiment_label_valid (Py.strip (form_get request "feedback" ""))) as Hlabel.
  repeat branch; world_simpl; rewrite ?Hpending; world_simpl; effect_leaf.
Qed.

Lemma chat_api_effect (request : Request) (w : World) :
  pending w = [] -> Effect w (snd (chat_api request w)).
Proof.
  intros Hpending.
  destruct (logged_in w) eqn:Hin;
    [| unfold chat_api, bind, gets; rewrite Hin; apply Effect_refl].
  pose proof (request_message_pure request w) as Hpure.
  destruct (request_message request w) as [[v | e] w0] eqn:Hmsg;
    cbn [snd] in Hpure; subst w0;
    [| rewrite (chat_api_raised request w e Hin Hmsg); apply Effect_refl].
  destruct (json_truthy v) eqn:Hv;
    [| rewrite (chat_api_falsy request w v Hin Hmsg Hv); apply Effect_refl].
  destruct v as [| b | n | x | s | items | members];
    try (rewrite (chat_api_not_text request w _ Hin Hmsg Hv) by discriminate;
         effect_leaf).
  cbn [json_truthy] in Hv. pose proof Hv as Hs. apply truthy_true in Hs.
  unfold chat_api, bind at 1, gets. rewrite Hin. cbn [negb].
  unfold bind at 1. rewrite Hmsg. cbn [json_truthy]. rewrite Hv. cbn [negb].
  run_view. pose proof (get_ai_response_in_templates (Py.strip s)) as Hreply.
  repeat branch; world_simpl; rewrite ?Hpending; world_simpl; effect_leaf.
Qed.

Lemma signup_effect (request : Request) (w : World) :
  pending w = [] -> Effect w (snd (signup request w)).
Proof.
  intros Hpending. unfold signup. run_view.
  repeat branch; world_simpl; rewrite ?Hpending; world_simpl;
    repeat match goal with
           | H : negb (_ && _ && _) = false |- _ =>
               apply negb_false_iff in H; apply andb_true_iff in H as [H ?];
               apply andb_true_iff in H as [? ?]
           | H : Py.truthy _ = true |- _ => apply truthy_true in H
           end;
    try fold (registered (Py.strip (form_get request "email" "")) w) in *;
    try (assert (hashed (generate_password_hash (entropy w)
                           (form_get request "password" "")))
           by (unfold hashed; eauto));
    effect_leaf.
Qed.

Lemma login_effect (request : Request) (w : World) :
  Effect w (snd (login request w)).
Proof.
  unfold login. run_view.
  repeat branch; world_simpl;
    repeat match goal with
           | H : List.find _ _ = Some _ |- _ => apply find_some in H as [H _]
           end;
    effect_leaf.
Qed.

Lemma dashboard_effect (w : World) : Effect w (snd (dashboard w)).
Proof.
  unfold dashboard, get_feedback_stats, feedback_by_user, recent_feedback_of. run_view.
  repeat branch; world_simpl; effect_leaf.
Qed.

Lemma view_effect (request : Request) (w : World) :
  pending w = [] -> Effect w (snd (view request w)).
Proof.
  intros Hpending. unfold view.
  repeat branch;
    auto using submit_feedback_effect, chat_api_effect, signup_effect, login_effect,
      dashboard_effect;
    unfold index, home, chat, about, logout, page_not_found, method_not_allowed;
    run_view; repeat branch; world_simpl; effect_leaf.
Qed.

Lemma handle_effect (request : Request) (w : World) :
  pending w = [] ->
  Effect w (snd (handle request w)) /\ pending (snd (handle request w)) = [].
Proof.
  intros Hpending. pose proof (view_effect request w Hpending) as Heffect.
  unfold handle, try_except, internal_server_error, ret.
  destruct (view request w) as [[response | e] w']; cbn [snd] in Heffect;
    repeat branch; world_simpl; (split; [| reflexivity]);
    unfold Effect in *; world_simpl; exact Heffect.
Qed.

End Effects.

(** ** Any sequence of requests: the store stays consistent *)

Lemma initial_world_consistent {ext : Externals} : Consistent initial_world.
Proof.
  unfold Consistent, initial_world. cbn.
  split; [constructor |]. split; [intros u [] |]. split; [intros f [] |].
  split; [intros c [] |].
  intros v Hv. rewrite lookup_empty in Hv. discriminate.
Qed.

Section Sequences.
Context {ext : Externals}.

Lemma arrival_effect (arrival : bool * Z * Request) (w : World) :
  pending w = [] ->
  let w' := snd (handle (snd arrival)
                   (set_environment (fst (fst arrival)) (snd (fst arrival)) w)) in
  pending w' = []
  /\ (Consistent w -> Consistent w')
  /\ (exists new_users new_chats new_feedback,
        users w' = users w ++ new_users
        /\ chat_history w' = chat_history w ++ new_chats
        /\ feedback w' = feedback w ++ new_feedback
        /\ length new_users <= 1 /\ length new_chats <= 1 /\ length new_feedback <= 1).
Proof.
  intros Hpending.
  set (w0 := set_environment (fst (fst arrival)) (snd (fst arrival)) w).
  destruct (handle_effect (snd arrival) w0 Hpending) as [Heffect Hdone].
  cbv zeta. split; [exact Hdone |]. split.
  - intros Hw. apply (Effect_keeps_consistent w0); [exact Heffect | exact Hw].
  - destruct Heffect as (Husers & Hchat & Hfb & _).
    change (users w0) with (users w) in Husers.
    change (chat_history w0) with (chat_history w) in Hchat.
    change (feedback w0) with (feedback w) in Hfb.
    assert (Hu : exists l, users (snd (handle (snd arrival) w0)) = users w ++ l
                           /\ length l <= 1).
    { destruct Husers as [-> | (n & e & h & _ & _ & _ & _ & ->)];
        [exists []; rewrite app_nil_r | eexists]; split; try reflexivity; cbn; lia. }
    assert (Hc : exists l, chat_history (snd (handle (snd arrival) w0))
                           = chat_history w ++ l /\ length l <= 1).
    { destruct Hchat as [-> | (u & q & r & _ & _ & _ & ->)];
        [exists []; rewrite app_nil_r | eexists]; split; try reflexivity; cbn; lia. }
    assert (Hf : exists l, feedback (snd (handle (snd arrival) w0)) = feedback w ++ l
                           /\ length l <= 1).
    { destruct Hfb as [-> | (u & q & t & l & _ & _ & _ & ->)];
        [exists []; rewrite app_nil_r | eexists]; split; try reflexivity; cbn; lia. }
    destruct Hu as (l1 & -> & ?), Hc as (l2 & -> & ?), Hf as (l3 & -> & ?).
    exists l1, l2, l3. auto 10.
Qed.

(** X11. Whatever requests one browser sends, with the database accepting or
    refusing each commit, the store stays consistent: emails stay unique,
    every user has a name, an email and a password hash made by
    [generate_password_hash] from a non-empty password, every feedback row
    has one of the three labels, a non-empty text and an existing owner,
    every chat row a non-empty question, one of the six replies and an
    existing owner, and a logged-in session belongs to an existing user. *)
Theorem requests_keep_the_store_consistent
    (arrivals : list (bool * Z * Request)) (w : World) :
  Consistent w -> pending w = [] ->
  Consistent (serve arrivals w) /\ pending (serve arrivals w) = [].
Proof.
  revert w. induction arrivals as [|arrival arrivals IH]; intros w Hw Hpending.
  - split; assumption.
  - destruct (arrival_effect arrival w Hpending) as (Hdone & Hkeep & _).
    cbn [serve foldl]. apply IH; auto.
Qed.

(** X12. No request deletes or changes a stored row: after any sequence of
    requests each table is the table it was, followed by new rows, and one
    request adds at most one row to a table. *)
Theorem requests_only_append
    (arrivals : list (bool * Z * Request)) (w : World) :
  pending w = [] ->
  exists new_users new_chats new_feedback,
    users (serve arrivals w) = users w ++ new_users
    /\ chat_history (serve arrivals w) = chat_history w ++ new_chats
    /\ feedback (serve arrivals w) = feedback w ++ new_feedback
    /\ length new_users <= length arrivals
    /\ length new_chats <= length arrivals
    /\ length new_feedback <= length arrivals.
Proof.
  revert w. induction arrivals as [|arrival arrivals IH]; intros w Hpending.
  - exists [], [], []. cbn. rewrite !app_nil_r. auto 10.
  - destruct (arrival_effect arrival w Hpending)
      as (Hdone & _ & l1 & l2 & l3 & Hu & Hc & Hf & ? & ? & ?).
    destruct (IH _ Hdone) as (m1 & m2 & m3 & Hu' & Hc' & Hf' & ? & ? & ?).
    cbn [serve foldl]. fold (serve arrivals) in *.
    exists (l1 ++ m1), (l2 ++ m2), (l3 ++ m3).
    unfold serve in *. rewrite Hu', Hc', Hf', Hu, Hc, Hf, <- !app_assoc, !length_app.
    cbn [length]. repeat split; lia.
Qed.

End Sequences.

Lemma requests_keep_the_store_consistent_witness :
  @Consistent stub_externals (@serve stub_externals sample_visit initial_world)
  /\ pending (@serve stub_externals sample_visit initial_world) = [].
Proof.
  apply (@requests_keep_the_store_consistent stub_externals sample_visit initial_world).
  - exact (@initial_world_consistent stub_externals).
  - reflexivity.
Defined.

Lemma requests_only_append_witness :
  exists new_users new_chats new_feedback,
    users (@serve stub_externals sample_visit initial_world)
    = users initial_world ++ new_users
    /\ chat_history (@serve stub_externals sample_visit initial_world)
       = chat_history initial_world ++ new_chats
    /\ feedback (@serve stub_externals sample_visit initial_world)
       = feedback initial_world ++ new_feedback
    /\ length new_users <= length sample_visit
    /\ length new_chats <= length sample_visit
    /\ length new_feedback <= length sample_visit.
Proof.
  apply (@requests_only_append stub_externals sample_visit initial_world). reflexivity.
Defined.

(** The sample visit leaves one user, one chat row (the first attempt was
    refused) and one feedback row, and an empty session. *)
Example sample_visit_result :
  let w := @serve stub_externals sample_visit initial_world in
  map User.email (users w) = ["bob@example.org"]
  /\ map ChatHistory.question (chat_history w) = ["How do I renew my permit?"]
  /\ map ChatHistory.user_id (chat_history w) = [1%Z]
  /\ map Feedback.sentiment (feedback w) = ["Positive"]
  /\ map Feedback.feedback_text (feedback w) = ["great answer"]
  /\ session w = ∅.
Proof. vm_compute. repeat split. Qed.

(** ** Rows belong to the user of the session *)

Section Ownership.
Context {ext : Externals}.

(** X13. Whatever the request, a row that [handle] adds to the chat history or
    to the feedback table carries the user id of the session the request
    came with; a request without a logged-in session adds none. *)
Theorem new_rows_belong_to_the_session_user (request : Request) (w : World) :
  pending w = [] ->
  (forall c, In c (chat_history (snd (handle request w))) ->
     In c (chat_history w)
     \/ session w !! "user_id" = Some (SInt (ChatHistory.user_id c)))
  /\ (forall f, In f (feedback (snd (handle request w))) ->
        In f (feedback w)
        \/ session w !! "user_id" = Some (SInt (Feedback.user_id f)))
  /\ (session w !! "user_id" = None ->
        chat_history (snd (handle request w)) = chat_history w
        /\ feedback (snd (handle request w)) = feedback w).
Proof.
  intros Hpending.
  destruct (handle_effect request w Hpending) as [(_ & Hchat & Hfb & _) _].
  split; [| split].
  - intros c Hc. destruct Hchat as [Heq | (uid & q & r & Hs & _ & _ & Heq)];
      rewrite Heq in Hc; [left; exact Hc |].
    apply in_app_iff in Hc as [Hc | [<- | []]]; [left; exact Hc | right; exact Hs].
  - intros f Hf. destruct Hfb as [Heq | (uid & q & t & l & Hs & _ & _ & Heq)];
      rewrite Heq in Hf; [left; exact Hf |].
    apply in_app_iff in Hf as [Hf | [<- | []]]; [left; exact Hf | right; exact Hs].
  - intros Hnone. split.
    + destruct Hchat as [Heq | (uid & q & r & Hs & _)]; [exact Heq | congruence].
    + destruct Hfb as [Heq | (uid & q & t & l & Hs & _)]; [exact Heq | congruence].
Qed.

End Ownership.

Lemma new_rows_belong_to_the_session_user_witness :
  chat_history (snd (@handle stub_externals chat_request anonymous_world)) = []
  /\ feedback (snd (@handle stub_externals feedback_request anonymous_world))
     = feedback anonymous_world.
Proof.
  split.
  - apply (@new_rows_belong_to_the_session_user stub_externals chat_request
             anonymous_world eq_refl).
    reflexivity.
  - apply (@new_rows_belong_to_the_session_user stub_externals feedback_request
             anonymous_world eq_refl).
    reflexivity.
Defined.

(** ** Statistics over a consistent store *)

Lemma label_test_exact (label : string) :
  In label SENTIMENT_LABELS ->
  String.eqb (Py.lower label) "positive" = String.eqb label "Positive"
  /\ String.eqb (Py.lower label) "negative" = String.eqb label "Negative"
  /\ String.eqb (Py.lower label) "neutral" = String.eqb label "Neutral".
Proof. intros [<- | [<- | [<- | []]]]; vm_compute; auto. Qed.

Lemma count_label_exact (rows : list Feedback.t) :
  (forall f, In f rows -> In (Feedback.sentiment f) SENTIMENT_LABELS) ->
  count_label "positive" rows = count_exact "Positive" rows
  /\ count_label "negative" rows = count_exact "Negative" rows
  /\ count_label "neutral" rows = count_exact "Neutral" rows.
Proof.
  intros Hall. unfold count_label, count_exact.
  repeat split; f_equal; apply filter_ext_in; intros f Hf;
    apply (label_test_exact _ (Hall f Hf)).
Qed.

Section Exact_statistics.
Context {ext : Externals}.

(** X14. In a consistent store the letter-case folding and the catch-all
    [else] of [get_feedback_stats] make no difference: for the user of the
    session the three counters are the numbers of that user's rows labelled
    exactly "Positive", "Negative" and "Neutral", and they add up to the
    total. *)
Theorem consistent_store_stats_are_exact (w : World) (uid : Z) :
  Consistent w ->
  session w !! "user_id" = Some (SInt uid) ->
  exists stats,
    fst (get_feedback_stats w) = Returns stats
    /\ Stats.positive stats = count_exact "Positive" (rows_of uid w)
    /\ Stats.negative stats = count_exact "Negative" (rows_of uid w)
    /\ Stats.neutral stats = count_exact "Neutral" (rows_of uid w)
    /\ Stats.total stats
       = count_exact "Positive" (rows_of uid w) + count_exact "Negative" (rows_of uid w)
         + count_exact "Neutral" (rows_of uid w).
Proof.
  intros (_ & _ & Hrows & _) Hsession.
  rewrite (get_feedback_stats_run w uid Hsession).
  assert (Hlabels : forall f, In f (rows_of uid w) ->
                      In (Feedback.sentiment f) SENTIMENT_LABELS).
  { intros f Hf. apply filter_In in Hf as [Hf _]. apply (Hrows f Hf). }
  destruct (count_label_exact _ Hlabels) as (Hp & Hn & Hz).
  assert (Hlower : forall f, In f (rows_of uid w) ->
            In (Py.lower (Feedback.sentiment f)) ["positive"; "negative"; "neutral"]).
  { intros f Hf. destruct (Hlabels f Hf) as [H | [H | [H | []]]]; rewrite <- H; cbn; auto. }
  pose proof (count_neutral _ Hlower) as Hneutral.
  destruct (tally_fold (rows_of uid w) (Stats.mk 0 0 0 (length (rows_of uid w))))
    as [-> Hle].
  eexists. split; [reflexivity |].
  cbn [Stats.positive Stats.negative Stats.neutral Stats.total].
  rewrite <- Hp, <- Hn, <- Hz. repeat split; lia.
Qed.

End Exact_statistics.

Lemma tidy_world_consistent : @Consistent stub_externals tidy_world.
Proof.
  unfold Consistent. cbn [users feedback chat_history session tidy_world].
  split; [apply NoDup_singleton |].
  split.
  { intros u [<- | []]. cbn. repeat split; try discriminate.
    exists 0, "secret". split; [discriminate | reflexivity]. }
  split.
  { intros f Hf.
    assert (Howner : user_exists 1 tidy_world)
      by (eexists; split; [left; reflexivity | reflexivity]).
    destruct Hf as [<- | [<- | [<- | [<- | []]]]]; cbn;
      (split; [auto | split; [discriminate | exact Howner]]). }
  split; [intros c [] |].
  intros v Hv. vm_compute in Hv. injection Hv as <-.
  exists 1%Z. split; [reflexivity |].
  eexists. split; [left; reflexivity | reflexivity].
Qed.

Lemma consistent_store_stats_are_exact_witness :
  exists stats,
    fst (get_feedback_stats tidy_world) = Returns stats
    /\ stats = Stats.mk 2 1 1 4.
Proof.
  destruct (@consistent_store_stats_are_exact stub_externals tidy_world 1
              tidy_world_consistent eq_refl)
    as (stats & Hrun & Hpos & Hneg & Hneu & Htot).
  exists stats. split; [exact Hrun |].
  destruct stats as [p n g t]. cbn in Hpos, Hneg, Hneu, Htot.
  vm_compute in Hpos, Hneg, Hneu, Htot. congruence.
Defined.

(** ** White space around a question *)

Lemma isspace_lower_char (c : ascii) : Py.isspace (Py.lower_char c) = Py.isspace c.
Proof. destruct c as [[] [] [] [] [] [] [] []]; reflexivity. Qed.

Lemma lower_lstrip (s : string) : Py.lower (Py.lstrip s) = Py.lstrip (Py.lower s).
Proof.
  induction s as [|c s IH]; [reflexivity |].
  cbn [Py.lstrip Py.lower]. rewrite isspace_lower_char.
  destruct (Py.isspace c); [exact IH | reflexivity].
Qed.

Lemma lower_rstrip (s : string) : Py.lower (Py.rstrip s) = Py.rstrip (Py.lower s).
Proof.
  induction s as [|c s IH]; [reflexivity |].
  cbn [Py.rstrip Py.lower]. rewrite <- IH, isspace_lower_char.
  destruct (Py.rstrip s); [destruct (Py.isspace c) |]; reflexivity.
Qed.

Lemma lower_strip (s : string) : Py.lower (Py.strip s) = Py.strip (Py.lower s).
Proof. unfold Py.strip. rewrite lower_rstrip, lower_lstrip. reflexivity. Qed.

Lemma space_is_no_start (word : string) (c : ascii) (s : string) :
  starts_in_text word = true -> Py.isspace c = true ->
  Py.startswith word (String c s) = false.
Proof.
  destruct word as [|a word]; [discriminate |]. cbn [starts_in_text Py.startswith].
  intros Ha Hc. destruct (Ascii.eqb a c) eqn:Heq; [| reflexivity].
  apply Ascii.eqb_eq in Heq. subst a. rewrite Hc in Ha. discriminate Ha.
Qed.

Lemma contains_lstrip (word s : string) :
  starts_in_text word = true ->
  Py.contains word (Py.lstrip s) = Py.contains word s.
Proof.
  intros Hword. induction s as [|c s IH]; [reflexivity |].
  cbn [Py.lstrip]. destruct (Py.isspace c) eqn:Hc; [| reflexivity].
  rewrite IH. cbn [Py.contains]. rewrite (space_is_no_start word c s Hword Hc).
  reflexivity.
Qed.

Lemma startswith_nothing (word : string) :
  ends_in_text word = true -> Py.startswith word "" = false.
Proof. destruct word; [discriminate | reflexivity]. Qed.

Lemma startswith_rstrip (word s : string) :
  ends_in_text word = true ->
  Py.startswith word (Py.rstrip s) = Py.startswith word s.
Proof.
  revert word. induction s as [|c s IH]; intros word Hword; [reflexivity |].
  destruct word as [|a word]; [discriminate |].
  assert (Hrest : Py.startswith word (Py.rstrip s) = Py.startswith word s).
  { destruct word as [|b word]; [reflexivity |]. apply IH. exact Hword. }
  cbn [Py.rstrip]. destruct (Py.rstrip s) as [|d t] eqn:Hstrip.
  - destruct (Py.isspace c) eqn:Hc.
    + cbn [Py.startswith]. destruct word as [|b word].
      * cbn [ends_in_text] in Hword. destruct (Ascii.eqb a c) eqn:Heq; [| reflexivity].
        apply Ascii.eqb_eq in Heq. subst a. rewrite Hc in Hword. discriminate Hword.
      * rewrite <- Hrest. cbn [Py.startswith]. rewrite andb_false_r. reflexivity.
    + cbn [Py.startswith]. rewrite <- Hrest. reflexivity.
  - cbn [Py.startswith]. rewrite <- Hrest. reflexivity.
Qed.

Lemma contains_rstrip (word s : string) :
  ends_in_text word = true ->
  Py.contains word (Py.rstrip s) = Py.contains word s.
Proof.
  intros Hword. induction s as [|c s IH]; [reflexivity |].
  change (Py.contains word (String c s))
    with (Py.startswith word (String c s) || Py.contains word s).
  rewrite <- (startswith_rstrip word (String c s) Hword), <- IH.
  cbn [Py.rstrip]. destruct (Py.rstrip s) as [|d t] eqn:Hstrip.
  - destruct (Py.isspace c); cbn [Py.contains]; rewrite ?startswith_nothing by exact Hword;
      rewrite ?orb_false_r; reflexivity.
  - reflexivity.
Qed.

Lemma any_in_strip (words : list string) (s : string) :
  forallb (fun word => starts_in_text word && ends_in_text word) words = true ->
  Py.any_in words (Py.strip s) = Py.any_in words s.
Proof.
  unfold Py.any_in, Py.strip. induction words as [|word words IH]; [reflexivity |].
  cbn [forallb existsb]. intros Hall. apply andb_true_iff in Hall as [Hword Hall].
  apply andb_true_iff in Hword as [Hstart Hend].
  rewrite (contains_rstrip word _ Hend), (contains_lstrip word _ Hstart), (IH Hall).
  reflexivity.
Qed.

(** X15. White space in front of a question and after it never changes the
    reply: [get_ai_response] of the stripped question, which is what
    [chat_api] computes and stores, is [get_ai_response] of the question as
    typed.  The same holds for the chat-turn sentiment. *)
Theorem reply_ignores_surrounding_space (question : string) :
  get_ai_response (Py.strip question) = get_ai_response question
  /\ chat_sentiment (Py.strip question) = chat_sentiment question.
Proof.
  unfold get_ai_response, chat_sentiment. rewrite lower_strip.
  rewrite !any_in_strip by reflexivity. split; reflexivity.
Qed.

(** ** Where the server-error page can come from *)




Section Server_errors.
Context {ext : Externals}.



Section Typed_session.
Variable w : World.
Hypothesis Htyped : forall name, session w !! "user_id" <> Some (SStr name).











End Typed_session.


End Server_errors.

